(** * The active-record engine of [eloquent/orm/model.py]

    A shallow embedding of class [Model]: mass-assignment guard, casts,
    dirty tracking against the [original] snapshot, timestamps and the
    save / delete state machine, followed by the properties of the
    specification that concern them.

    Python objects are mutable and methods may raise: a method of [Model]
    is a function from the world (the instance, the queries issued so far,
    the number of clock readings) to an outcome and the world it leaves
    behind, also when it raises. *)

From Stdlib Require Import List String Ascii Bool ZArith.
From Stdlib Require Import Floats.SpecFloat.
Import ListNotations.
Open Scope string_scope.
Open Scope list_scope.

Set Implicit Arguments.
Set Warnings "-register-all".

(** ** Python values *)

(** A dictionary key of this program: a [str], or [None] (the value of
    [__primary_key__] of a type that declares no key). *)
Definition pykey := option string.

Definition key_eqb (a b : pykey) : bool :=
  match a, b with
  | Some x, Some y => String.eqb x y
  | None, None => true
  | _, _ => false
  end.

(** An insertion-ordered Python [dict]: keys are unique, [d[k] = v]
    replaces in place or appends. *)
Definition pydict (V : Type) := list (pykey * V).

Section Dict.
Variable V : Type.

Fixpoint dict_get (k : pykey) (d : pydict V) : option V :=
  match d with
  | [] => None
  | (k', v) :: r => if key_eqb k k' then Some v else dict_get k r
  end.

(** [k in d] *)
Definition dict_has (k : pykey) (d : pydict V) : bool :=
  match dict_get k d with Some _ => true | None => false end.

(** [d[k] = v] *)
Fixpoint dict_set (k : pykey) (v : V) (d : pydict V) : pydict V :=
  match d with
  | [] => [(k, v)]
  | (k', v') :: r =>
      if key_eqb k k' then (k', v) :: r else (k', v') :: dict_set k v r
  end.

(** [len(d)] is zero *)
Definition dict_empty (d : pydict V) : bool :=
  match d with [] => true | _ => false end.
End Dict.

(** The values an attribute can hold.  A [datetime] is naive and is kept
    as its wall-clock microseconds; an [arrow.Arrow] carries its
    wall-clock microseconds and its offset from UTC. *)
Inductive value : Type :=
| VNone
| VBool (b : bool)
| VInt (z : Z)
| VFloat (f : spec_float)
| VStr (s : string)
| VDatetime (wall : Z)
| VArrow (wall : Z) (offset : Z)
| VList (items : list value)
| VDict (items : list (string * value)).

(** [value is None] *)
Definition is_None (v : value) : bool :=
  match v with VNone => true | _ => false end.

(** [bool(value)], the truth value Python tests in [if value:] *)
Definition truthy (v : value) : bool :=
  match v with
  | VNone => false
  | VBool b => b
  | VInt z => negb (Z.eqb z 0)
  | VFloat (S754_zero _) => false
  | VFloat _ => true
  | VStr s => negb (String.eqb s "")
  | VDatetime _ => true
  | VArrow _ _ => true
  | VList l => match l with [] => false | _ => true end
  | VDict l => match l with [] => false | _ => true end
  end.

(** [isinstance(value, arrow.Arrow)] *)
Definition is_Arrow (v : value) : bool :=
  match v with VArrow _ _ => true | _ => false end.

(** ** Exceptions and outcomes *)

Inductive exn : Type :=
| MassAssignmentError (key : string)
| Exception_ (msg : string)
| AttributeError (key : pykey)
| KeyError (key : pykey)
| External.
(** [External] is any exception raised inside a collaborator (arrow,
    simplejson, a builtin conversion, the query builder); it is none of
    the exceptions above. *)

Inductive result (A : Type) : Type :=
| Ok (a : A)
| Raise (e : exn).
Arguments Ok {A} a.
Arguments Raise {A} e.

Definition rbind {A B} (r : result A) (f : A -> result B) : result B :=
  match r with Ok a => f a | Raise e => Raise e end.

(** What a collaborator returns: a value, or nothing when it raised. *)
Definition external {A} (r : option A) : result A :=
  match r with Some a => Ok a | None => Raise External end.

(** ** Queries handed to the query builder *)

Definition wheres := list (pykey * value).

Inductive query : Type :=
| Update (w : wheres) (values : pydict value)
| Insert (values : pydict value)
| InsertGetId (values : pydict value) (sequence : pykey)
| Delete (w : wheres).

(** ** The collaborators

    Everything the model calls and does not define: Python's [!=] on
    attribute values, the conversions [int()], [float()] and [str()],
    arrow, simplejson and the query builder with its connection.  A
    collaborator that raises returns [None]. *)
Class Externals : Type := {
  (** [a != b] *)
  py_ne : value -> value -> bool;
  (** [int(v)], [float(v)], [str(v)] *)
  py_int : value -> option value;
  py_float : value -> option value;
  py_str : value -> option value;
  (** [arrow.get(v)]: wall-clock microseconds and offset of the Arrow *)
  arrow_get : value -> option (Z * Z);
  (** [arrow.get()] at the n-th reading of the clock, in UTC *)
  clock : nat -> Z;
  (** [date.isoformat()] *)
  isoformat : value -> option value;
  (** [json.dumps(v)] and [json.loads(v)] *)
  json_dumps : value -> option string;
  json_loads : value -> option value;
  (** the answer of the connection to a query, given those already run *)
  respond : list query -> query -> option value
}.

(** ** Strings *)

(** [key.startswith('_')] *)
Definition starts_with_underscore (s : string) : bool :=
  match s with
  | String c _ => Ascii.eqb c "_"%char
  | EmptyString => false
  end.

(** The text after the last ['.'] of [s], if [s] has one. *)
Fixpoint after_last_dot (s : string) : option string :=
  match s with
  | EmptyString => None
  | String c r =>
      match after_last_dot r with
      | Some t => Some t
      | None => if Ascii.eqb c "."%char then Some r else None
      end
  end.

(** [s.lower()] and [s.strip()] on ASCII text: the letters A-Z, and the
    white space Python strips ([\t \n \v \f \r], the separators
    0x1c-0x1f and the blank). *)
Definition lower_char (c : ascii) : ascii :=
  let n := nat_of_ascii c in
  if andb (Nat.leb 65 n) (Nat.leb n 90) then ascii_of_nat (n + 32) else c.

Fixpoint lower (s : string) : string :=
  match s with
  | EmptyString => EmptyString
  | String c r => String (lower_char c) (lower r)
  end.

Definition is_space (c : ascii) : bool :=
  let n := nat_of_ascii c in
  orb (andb (Nat.leb 9 n) (Nat.leb n 13))
      (andb (Nat.leb 28 n) (Nat.leb n 32)).

Fixpoint lstrip (s : string) : string :=
  match s with
  | EmptyString => EmptyString
  | String c r => if is_space c then lstrip r else s
  end.

Fixpoint rstrip (s : string) : string :=
  match s with
  | EmptyString => EmptyString
  | String c r =>
      match rstrip r with
      | EmptyString => if is_space c then EmptyString else String c EmptyString
      | r' => String c r'
      end
  end.

Definition strip (s : string) : string := rstrip (lstrip s).

(** [x in l] for a list of strings *)
Definition str_in (x : string) (l : list string) : bool :=
  existsb (String.eqb x) l.

(** [k in l] for a key that may be [None]: a list of strings holds no
    [None]. *)
Definition key_in (k : pykey) (l : list string) : bool :=
  match k with Some x => str_in x l | None => false end.

(** [bool(l)] for a list: it is not empty *)
Definition truthy_list {A} (l : list A) : bool :=
  match l with [] => false | _ => true end.

(** [l == ['*']] *)
Definition is_star (l : list string) : bool :=
  match l with
  | [x] => String.eqb x "*"
  | _ => false
  end.

(** ** The model instance and the world around it *)

(** The class-level declarations ([__primary_key__] ... [__casts__]) and
    the instance fields ([__exists], [__dates], [__original],
    [__attributes]) as one instance sees them. *)
Record Model : Type := mkModel {
  primary_key : pykey;
  incrementing : bool;
  fillable : list string;
  guarded : list string;
  unguarded : bool;
  hidden : list string;
  visible : list string;
  timestamps : bool;
  casts : pydict string;
  exists_ : bool;
  dates : list string;
  original : pydict value;
  attributes : pydict value
}.

Definition CREATED_AT : string := "created_at".
Definition UPDATED_AT : string := "updated_at".

Definition with_attributes (a : pydict value) (m : Model) : Model :=
  mkModel (primary_key m) (incrementing m) (fillable m) (guarded m)
    (unguarded m) (hidden m) (visible m) (timestamps m) (casts m)
    (exists_ m) (dates m) (original m) a.

Definition with_original (o : pydict value) (m : Model) : Model :=
  mkModel (primary_key m) (incrementing m) (fillable m) (guarded m)
    (unguarded m) (hidden m) (visible m) (timestamps m) (casts m)
    (exists_ m) (dates m) o (attributes m).

Definition with_exists (b : bool) (m : Model) : Model :=
  mkModel (primary_key m) (incrementing m) (fillable m) (guarded m)
    (unguarded m) (hidden m) (visible m) (timestamps m) (casts m)
    b (dates m) (original m) (attributes m).

Definition with_unguarded (b : bool) (m : Model) : Model :=
  mkModel (primary_key m) (incrementing m) (fillable m) (guarded m)
    b (hidden m) (visible m) (timestamps m) (casts m)
    (exists_ m) (dates m) (original m) (attributes m).

Record World : Type := mkWorld {
  self : Model;
  queries : list query;
  ticks : nat
}.

Definition with_self (m : Model) (w : World) : World :=
  mkWorld m (queries w) (ticks w).

(** ** The monad of methods *)

Definition M (A : Type) : Type := World -> result A * World.

Definition ret {A} (a : A) : M A := fun w => (Ok a, w).

Definition raise {A} (e : exn) : M A := fun w => (Raise e, w).

Definition bind {A B} (c : M A) (f : A -> M B) : M B :=
  fun w =>
    match c w with
    | (Ok a, w') => f a w'
    | (Raise e, w') => (Raise e, w')
    end.

Definition lift {A} (r : result A) : M A := fun w => (r, w).

Definition get_self : M Model := fun w => (Ok (self w), w).

Definition modify_self (f : Model -> Model) : M unit :=
  fun w => (Ok tt, with_self (f (self w)) w).

Declare Scope method_scope.
Delimit Scope method_scope with method.
Notation "x <- c ;; k" := (bind c (fun x => k))
  (at level 61, c at next level, right associativity) : method_scope.
Notation "c ;; k" := (bind c (fun _ => k))
  (at level 61, right associativity) : method_scope.
Open Scope method_scope.

(** ** The methods of [Model] *)

Section Methods.
Context {E : Externals}.

(** *** Guard policy *)

Definition totally_guarded (m : Model) : bool :=
  andb (Nat.eqb (List.length (fillable m)) 0) (is_star (guarded m)).

Definition is_guarded (m : Model) (key : string) : bool :=
  orb (str_in key (guarded m)) (is_star (guarded m)).

Definition is_fillable (m : Model) (key : string) : bool :=
  if unguarded m then true
  else if str_in key (fillable m) then true
  else if is_guarded m key then false
  else andb (negb (truthy_list (fillable m)))
            (negb (starts_with_underscore key)).

Definition _remove_table_from_key (key : string) : string :=
  match after_last_dot key with
  | None => key
  | Some last => last
  end.

(** The comprehension keeps the entries of [attributes] whose key is in
    [__fillable__], in their order. *)
Definition _fillable_from_dict (m : Model) (attributes : list (string * value))
  : list (string * value) :=
  if andb (truthy_list (fillable m)) (negb (unguarded m))
  then filter (fun kv => str_in (fst kv) (fillable m)) attributes
  else attributes.

Definition unguard : M unit := modify_self (with_unguarded true).
Definition reguard : M unit := modify_self (with_unguarded false).

(** *** Casts and dates *)

Definition get_dates (m : Model) : list string :=
  dates m ++ [CREATED_AT; UPDATED_AT].

Definition _has_cast (m : Model) (key : pykey) : bool :=
  dict_has key (casts m).

(** [self.__casts__[key].lower().strip()] *)
Definition _get_cast_type (m : Model) (key : pykey) : result string :=
  match dict_get key (casts m) with
  | Some t => Ok (strip (lower t))
  | None => Raise (KeyError key)
  end.

Definition _is_json_castable (m : Model) (key : pykey) : bool :=
  if _has_cast m key then
    match _get_cast_type m key with
    | Ok type => str_in type ["list"; "dict"; "json"; "object"]
    | Raise _ => false
    end
  else false.

Definition _cast_attribute (m : Model) (key : pykey) (v : value)
  : result value :=
  if is_None v then Ok VNone
  else
    rbind (_get_cast_type m key) (fun type =>
      if str_in type ["int"; "integer"] then external (py_int v)
      else if str_in type ["real"; "float"; "double"] then external (py_float v)
      else if str_in type ["string"; "str"] then external (py_str v)
      else if str_in type ["bool"; "boolean"] then Ok (VBool (truthy v))
      else if str_in type ["dict"; "list"; "json"] then external (json_loads v)
      else Ok v).

(** [arrow.get(value)] *)
Definition as_datetime (v : value) : result value :=
  external (option_map (fun a => VArrow (fst a) (snd a)) (arrow_get v)).

(** The [naive] property of an Arrow; no other value has it. *)
Definition naive (v : value) : result value :=
  match v with
  | VArrow wall _ => Ok (VDatetime wall)
  | _ => Raise (AttributeError (Some "naive"))
  end.

Definition from_datetime (v : value) : result value :=
  if is_Arrow v then naive v
  else rbind (as_datetime v) naive.

(** [get_date_format] is the constant ['iso'], so that only the first
    branch of [_format_date] runs: [date.isoformat()]. *)
Definition _format_date (date : value) : result value :=
  external (isoformat date).

(** *** The attribute store *)

Definition _get_attribute_from_dict (m : Model) (key : pykey) : value :=
  match dict_get key (attributes m) with
  | Some v => v
  | None => VNone
  end.

Definition _get_attribute_value (m : Model) (key : pykey) : result value :=
  let v := _get_attribute_from_dict m key in
  if _has_cast m key then _cast_attribute m key v
  else if key_in key (get_dates m) then
    if negb (is_None v) then as_datetime v else Ok v
  else Ok v.

Definition get_attribute (m : Model) (key : pykey) : result value :=
  if dict_has key (attributes m) then _get_attribute_value m key
  else Raise (AttributeError key).

Definition set_attribute (key : pykey) (v : value) : M unit :=
  m <- get_self ;;
  v <- (if andb (key_in key (get_dates m)) (truthy v)
        then lift (from_datetime v) else ret v) ;;
  v <- (if _is_json_castable m key
        then lift (external (option_map VStr (json_dumps v))) else ret v) ;;
  modify_self (fun m => with_attributes (dict_set key v (attributes m)) m).

(** [setattr(self, key, value)] as [__setattr__] runs it for one of the
    two timestamp columns.  Neither name starts with an underscore and
    neither is a member of the class, so [getattr(self, key, None)]
    ends in [get_attribute]: its [AttributeError] becomes the default
    [None], any other exception propagates, and an attribute value is
    never callable.  What is left is [set_attribute]. *)
Definition setattr_ (key : string) (v : value) : M unit :=
  m <- get_self ;;
  match get_attribute m (Some key) with
  | Ok _ | Raise (AttributeError _) => set_attribute (Some key) v
  | Raise e => raise e
  end.

Definition set_created_at (v : value) : M unit := setattr_ CREATED_AT v.
Definition set_updated_at (v : value) : M unit := setattr_ UPDATED_AT v.

(** [dict(self.__attributes.items())]: a copy, entry by entry *)
Definition sync_original : M unit :=
  modify_self (fun m => with_original (attributes m) m).

(** *** Dirty tracking *)

Definition get_dirty (m : Model) : pydict value :=
  filter (fun kv =>
            match dict_get (fst kv) (original m) with
            | None => true
            | Some o => py_ne (snd kv) o
            end)
         (attributes m).

Definition is_dirty (m : Model) (attrs : list string) : bool :=
  let dirty := get_dirty m in
  match attrs with
  | [] => Nat.ltb 0 (List.length dirty)
  | _ => existsb (fun a => dict_has (Some a) dirty) attrs
  end.

(** *** Serialization *)

Fixpoint dictable_without_hidden (m : Model) (values : pydict value)
  : result (pydict value) :=
  match values with
  | [] => Ok []
  | (x, v) :: rest =>
      if key_in x (hidden m) then dictable_without_hidden m rest
      else
        match x with
        | None => Raise (AttributeError (Some "startswith"))
        | Some name =>
            rbind (dictable_without_hidden m rest) (fun r =>
              if starts_with_underscore name then Ok r else Ok ((x, v) :: r))
        end
  end.

Definition _get_dictable_items (m : Model) (values : pydict value)
  : result (pydict value) :=
  if Nat.ltb 0 (List.length (visible m))
  then Ok (filter (fun kv => key_in (fst kv) (visible m)) values)
  else dictable_without_hidden m values.

Definition _get_dictable_attributes (m : Model) : result (pydict value) :=
  _get_dictable_items m (attributes m).

(** The first loop of [attributes_to_dict], over [get_dates()]. *)
Fixpoint format_dates (keys : list string) (attrs : pydict value)
  : result (pydict value) :=
  match keys with
  | [] => Ok attrs
  | key :: rest =>
      match dict_get (Some key) attrs with
      | None => format_dates rest attrs
      | Some v =>
          rbind (as_datetime v) (fun d =>
          rbind (_format_date d) (fun s =>
          format_dates rest (dict_set (Some key) s attrs)))
      end
  end.

(** The second loop, over [__casts__.items()]. *)
Fixpoint cast_all (m : Model) (items : pydict string) (attrs : pydict value)
  : result (pydict value) :=
  match items with
  | [] => Ok attrs
  | (key, _) :: rest =>
      match dict_get key attrs with
      | None => cast_all m rest attrs
      | Some v =>
          rbind (_cast_attribute m key v) (fun c =>
          cast_all m rest (dict_set key c attrs))
      end
  end.

Definition attributes_to_dict (m : Model) : result (pydict value) :=
  rbind (_get_dictable_attributes m) (fun attrs =>
  rbind (format_dates (get_dates m) attrs) (fun attrs =>
  cast_all m (casts m) attrs)).

(** [relations_to_dict] is the empty dictionary. *)
Definition to_dict (m : Model) : result (pydict value) :=
  attributes_to_dict m.

(** *** Mass assignment *)

(** The loop of [fill] over the items that are left. *)
Fixpoint fill_items (totally_guarded : bool) (items : list (string * value))
  : M unit :=
  match items with
  | [] => ret tt
  | (key, v) :: rest =>
      let key := _remove_table_from_key key in
      m <- get_self ;;
      (if is_fillable m key then set_attribute (Some key) v
       else if totally_guarded then raise (MassAssignmentError key)
       else ret tt) ;;
      fill_items totally_guarded rest
  end.

Definition fill (attributes : list (string * value)) : M unit :=
  m <- get_self ;;
  let totally_guarded := totally_guarded m in
  fill_items totally_guarded (_fillable_from_dict m attributes).

Definition force_fill (attributes : list (string * value)) : M unit :=
  unguard ;;
  fill attributes ;;
  reguard.

(** *** The query builder *)

(** A builder under construction: the predicates given to [where]. *)
Definition Builder := wheres.

(** Building a query runs nothing; the connection resolver is taken to
    be set, as every persistence call requires. *)
Definition new_query : M Builder := ret [].

Definition where_ (column : pykey) (v : value) (b : Builder) : Builder :=
  b ++ [(column, v)].

(** The builder hands [q] to the connection; the query is recorded
    whether the connection answers or raises. *)
Definition run (q : query) : M value :=
  fun w =>
    (external (respond (queries w) q),
     mkWorld (self w) (queries w ++ [q]) (ticks w)).

(** *** Timestamps *)

(** [arrow.get()] *)
Definition fresh_timestamp : M value :=
  fun w =>
    (Ok (VArrow (clock (ticks w)) 0),
     mkWorld (self w) (queries w) (S (ticks w))).

Definition _update_timestamps : M unit :=
  time <- fresh_timestamp ;;
  m <- get_self ;;
  (if negb (is_dirty m [UPDATED_AT]) then set_updated_at time else ret tt) ;;
  m <- get_self ;;
  (if andb (negb (exists_ m)) (negb (is_dirty m [CREATED_AT]))
   then set_created_at time else ret tt).

(** *** Save and delete *)

(** [options.get(name, True)], as a condition *)
Definition option_set (options : pydict value) (name : string) : bool :=
  match dict_get (Some name) options with
  | Some v => truthy v
  | None => true
  end.

(** The statement that [_perform_update] and [_perform_insert] both
    run before they write:
    [if self.__timestamps__ and options.get('timestamps', True):
         self._update_timestamps()] *)
Definition update_timestamps_if_enabled (options : pydict value) : M unit :=
  m <- get_self ;;
  if andb (timestamps m) (option_set options "timestamps")
  then _update_timestamps else ret tt.

Definition get_key_name (m : Model) : pykey := primary_key m.


Definition _touch_owners : M unit := ret tt.

Definition _get_key_for_save_query (m : Model) : result value :=
  match dict_get (get_key_name m) (original m) with
  | Some v => Ok v
  | None =>
      match dict_get (get_key_name m) (attributes m) with
      | Some v => Ok v
      | None => Raise (KeyError (get_key_name m))
      end
  end.

Definition _set_keys_for_save_query (query : Builder) : M Builder :=
  m <- get_self ;;
  key <- lift (_get_key_for_save_query m) ;;
  ret (where_ (get_key_name m) key query).

Definition _perform_update (query : Builder) (options : pydict value)
  : M value :=
  m <- get_self ;;
  let dirty := get_dirty m in
  (if Nat.ltb 0 (List.length dirty) then
     update_timestamps_if_enabled options ;;
     m <- get_self ;;
     let dirty := get_dirty m in
     if Nat.ltb 0 (List.length dirty) then
       q <- _set_keys_for_save_query query ;;
       run (Update q dirty) ;;
       ret tt
     else ret tt
   else ret tt) ;;
  ret (VBool true).

Definition _insert_and_set_id (query : Builder) (attributes : pydict value)
  : M unit :=
  m <- get_self ;;
  let key_name := get_key_name m in
  id <- run (InsertGetId attributes key_name) ;;
  set_attribute key_name id.

Definition _perform_insert (query : Builder) (options : pydict value)
  : M value :=
  update_timestamps_if_enabled options ;;
  m <- get_self ;;
  let attributes := attributes m in
  (if incrementing m then _insert_and_set_id query attributes
   else run (Insert attributes) ;; ret tt) ;;
  modify_self (with_exists true) ;;
  ret (VBool true).

Definition _finish_save (options : pydict value) : M unit :=
  sync_original ;;
  if option_set options "touch" then _touch_owners else ret tt.

Definition save (options : pydict value) : M value :=
  query <- new_query ;;
  m <- get_self ;;
  saved <- (if exists_ m then _perform_update query options
            else _perform_insert query options) ;;
  (if truthy saved then _finish_save options else ret tt) ;;
  ret saved.


End Methods.

(** ** The life of an instance: construction, hydration, copies

    A method that builds another object ([new_instance],
    [new_from_builder], [replicate], [create]) returns it and leaves
    [self] as it is; the object is built from the class declarations,
    which the model reads off [self].  A class method ([create],
    [force_create], [hydrate]) runs on a world whose [self] stands for
    the class. *)

Section Lifecycle.
Context {E : Externals}.

(** [del d[k]]: afterwards [k] is not in [d]. *)
Definition dict_del {V} (k : pykey) (d : pydict V) : pydict V :=
  filter (fun kv => negb (key_eqb k (fst kv))) d.

(** [k in l] for a list of keys *)
Definition pykey_in (k : pykey) (l : list pykey) : bool :=
  existsb (key_eqb k) l.

(** The keyword arguments of a call as the dictionary they are. *)
Definition as_dict (attributes : list (string * value)) : pydict value :=
  map (fun kv => (Some (fst kv), snd kv)) attributes.

(** A dictionary unpacked into the keywords of a call: the keywords
    are strings, and Python refuses any other key with a TypeError, which
    is none of the exceptions of the model. *)
Fixpoint keywords (d : pydict value) : result (list (string * value)) :=
  match d with
  | [] => Ok []
  | (Some name, v) :: rest =>
      rbind (keywords rest) (fun r => Ok ((name, v) :: r))
  | (None, _) :: _ => Raise External
  end.

(** The first four statements of [__init__]. *)
Definition blank (m : Model) : Model :=
  mkModel (primary_key m) (incrementing m) (fillable m) (guarded m)
    (unguarded m) (hidden m) (visible m) (timestamps m) (casts m)
    false [] [] [].

(** [_boot_if_not_booted] records the class as booted and calls [_boot],
    which does nothing. *)
Definition __init__ (attributes : list (string * value)) : M unit :=
  modify_self blank ;;
  sync_original ;;
  fill attributes.

(** [c] run on the object [m] in place of [self].  The unguarded flag
    belongs to the class, so what [c] makes of it is seen by [self]
    too. *)
Definition on {A} (m : Model) (c : M A) : M A :=
  fun w =>
    let (r, w') := c (with_self m w) in
    (r, with_self (with_unguarded (unguarded (self w')) (self w)) w').

(** A call of [self.__class__] with the keywords [attributes]: the
    object that [__init__] leaves. *)
Definition construct (attributes : pydict value) : M Model :=
  m <- get_self ;;
  kw <- lift (keywords attributes) ;;
  on m (__init__ kw ;; get_self).

Definition new_instance (attributes : option (pydict value)) (exists' : bool)
  : M Model :=
  let attributes := match attributes with None => [] | Some a => a end in
  model <- construct attributes ;;
  ret (with_exists exists' model).

Definition set_raw_attributes (attributes : pydict value) (sync : bool)
  : M unit :=
  modify_self (with_attributes attributes) ;;
  if sync then sync_original else ret tt.

(** [set_connection] names the connection, which the model leaves out. *)
Definition new_from_builder (attributes : option (pydict value)) : M Model :=
  model <- new_instance (Some []) true ;;
  let attributes := match attributes with None => [] | Some a => a end in
  on model (set_raw_attributes attributes true ;; get_self).

(** [list(map(each, items))], with the effects of [each] in order. *)
Fixpoint map_m {A B} (each : A -> M B) (items : list A) : M (list B) :=
  match items with
  | [] => ret []
  | item :: rest =>
      made <- each item ;;
      others <- map_m each rest ;;
      ret (made :: others)
  end.

Definition hydrate (items : list (pydict value)) : M (list Model) :=
  instance <- construct [] ;;
  on instance (map_m (fun item => new_from_builder (Some item)) items).

(** The class is called with the keywords, the object saved and
    returned. *)
Definition create (attributes : list (string * value)) : M Model :=
  model <- construct (as_dict attributes) ;;
  on model (save [] ;; get_self).

(** The instance that [force_create] returns reads the flag of its
    class, which [reguard] has just lowered. *)
Definition force_create (attributes : list (string * value)) : M Model :=
  unguard ;;
  model <- create attributes ;;
  reguard ;;
  ret (with_unguarded false model).


Definition update (attributes : list (string * value)) : M value :=
  m <- get_self ;;
  if negb (exists_ m) then
    query <- new_query ;;
    run (Update query (as_dict attributes))
  else fill attributes ;; save [].

(** Every statement of [replicate] stands under [if except_ is None]:
    a call that names the attributes to leave out falls off the end. *)
Definition replicate (except_ : option (list pykey)) : M (option Model) :=
  match except_ with
  | None =>
      m <- get_self ;;
      let except_ := [get_key_name m; Some CREATED_AT; Some UPDATED_AT] in
      let attributes :=
        filter (fun kv => negb (pykey_in (fst kv) except_)) (attributes m) in
      instance <- new_instance (Some attributes) false ;;
      ret (Some instance)
  | Some _ => ret None
  end.

Definition __delattr__ (item : string) : M unit :=
  m <- get_self ;;
  if dict_has (Some item) (attributes m)
  then modify_self (fun m =>
         with_attributes (dict_del (Some item) (attributes m)) m)
  else raise (AttributeError (Some item)).

Definition sync_original_attribute (attribute : pykey) : M unit :=
  m <- get_self ;;
  match dict_get attribute (attributes m) with
  | Some v =>
      modify_self (fun m => with_original (dict_set attribute v (original m)) m)
  | None => raise (KeyError attribute)
  end.
End Lifecycle.

(** ** A set of collaborators to run the model with

    Enough of Python, arrow and simplejson to evaluate the methods on the
    inputs of the examples below; the theorems hold for every set of
    collaborators. *)

Module Reference.

Definition int_of_bool (b : bool) : Z := if b then 1%Z else 0%Z.

(** [a == b]: [None], booleans and integers (a boolean is the integer 0
    or 1), floats as IEEE-754 compares them (a NaN equals nothing, itself
    included), text, naive datetimes, Arrows by instant, lists and
    dictionaries entry by entry. *)
Fixpoint py_eq (a b : value) : bool :=
  match a, b with
  | VNone, VNone => true
  | VBool x, VBool y => Bool.eqb x y
  | VBool x, VInt y => Z.eqb (int_of_bool x) y
  | VInt x, VBool y => Z.eqb x (int_of_bool y)
  | VInt x, VInt y => Z.eqb x y
  | VFloat x, VFloat y => SFeqb x y
  | VStr x, VStr y => String.eqb x y
  | VDatetime x, VDatetime y => Z.eqb x y
  | VArrow x o, VArrow y p => Z.eqb (x - o) (y - p)
  | VList x, VList y =>
      (fix all2 (l1 l2 : list value) : bool :=
         match l1, l2 with
         | [], [] => true
         | u :: r1, v :: r2 => andb (py_eq u v) (all2 r1 r2)
         | _, _ => false
         end) x y
  | VDict x, VDict y =>
      (fix all2 (l1 l2 : list (string * value)) : bool :=
         match l1, l2 with
         | [], [] => true
         | (j, u) :: r1, (k, v) :: r2 =>
             andb (String.eqb j k) (andb (py_eq u v) (all2 r1 r2))
         | _, _ => false
         end) x y
  | _, _ => false
  end.

(** [int(v)] of a boolean or an integer *)
Definition to_int (v : value) : option value :=
  match v with
  | VBool b => Some (VInt (int_of_bool b))
  | VInt z => Some (VInt z)
  | _ => None
  end.

(** [float(v)] of a float *)
Definition to_float (v : value) : option value :=
  match v with
  | VFloat f => Some (VFloat f)
  | _ => None
  end.

(** [arrow.get(v)] of a naive datetime (read as UTC) or of an Arrow *)
Definition to_arrow (v : value) : option (Z * Z) :=
  match v with
  | VDatetime wall => Some (wall, 0%Z)
  | VArrow wall offset => Some (wall, offset)
  | _ => None
  end.

(** The decimal digits of a natural number, as [json.dumps] and [str]
    write a non-negative integer. *)
Definition digit (n : nat) : ascii := ascii_of_nat (48 + n).

Fixpoint digits (fuel n : nat) (acc : string) : string :=
  match fuel with
  | O => acc
  | S fuel' =>
      let acc' := String (digit (Nat.modulo n 10)) acc in
      if Nat.ltb n 10 then acc' else digits fuel' (Nat.div n 10) acc'
  end.

Definition decimal (n : nat) : string := digits (S n) n EmptyString.

Definition to_str (v : value) : option value :=
  match v with
  | VStr s => Some (VStr s)
  | VInt z => if Z.leb 0 z then Some (VStr (decimal (Z.to_nat z))) else None
  | _ => None
  end.

(** [json.dumps(v)] of [None], a boolean, a non-negative integer, or a
    list of those: the JSON text, items separated by a comma and a
    blank.  A datetime is not serializable. *)
Definition dumps_scalar (v : value) : option string :=
  match v with
  | VNone => Some "null"
  | VBool true => Some "true"
  | VBool false => Some "false"
  | VInt z => if Z.leb 0 z then Some (decimal (Z.to_nat z)) else None
  | _ => None
  end.

Fixpoint dumps_items (l : list value) : option string :=
  match l with
  | [] => Some ""
  | [v] => dumps_scalar v
  | v :: r =>
      match dumps_scalar v, dumps_items r with
      | Some s, Some t => Some (s ++ ", " ++ t)%string
      | _, _ => None
      end
  end.

Definition dumps (v : value) : option string :=
  match v with
  | VList l => option_map (fun s => ("[" ++ s ++ "]")%string) (dumps_items l)
  | _ => dumps_scalar v
  end.

(** [json.loads(v)] of a text that [dumps] writes. *)
Fixpoint parse_decimal (s : string) (acc : nat) : option nat :=
  match s with
  | EmptyString => Some acc
  | String c r =>
      let n := nat_of_ascii c in
      if andb (Nat.leb 48 n) (Nat.leb n 57)
      then parse_decimal r (10 * acc + (n - 48))
      else None
  end.

Definition loads_scalar (s : string) : option value :=
  if String.eqb s "null" then Some VNone
  else if String.eqb s "true" then Some (VBool true)
  else if String.eqb s "false" then Some (VBool false)
  else
    match s with
    | EmptyString => None
    | _ => option_map (fun n => VInt (Z.of_nat n)) (parse_decimal s 0)
    end.

(** The items of a JSON list, split at each comma followed by a blank. *)
Fixpoint split_items (s current : string) : list string :=
  match s with
  | EmptyString => [current]
  | String c r =>
      match r with
      | String d r' =>
          if andb (Ascii.eqb c ","%char) (Ascii.eqb d " "%char)
          then current :: split_items r' EmptyString
          else split_items r (current ++ String c EmptyString)%string
      | EmptyString => [(current ++ String c EmptyString)%string]
      end
  end.

Fixpoint loads_items (items : list string) : option (list value) :=
  match items with
  | [] => Some []
  | s :: r =>
      match loads_scalar s, loads_items r with
      | Some v, Some l => Some (v :: l)
      | _, _ => None
      end
  end.

(** [s] without its last character, when that character is [c]. *)
Fixpoint without_last (c : ascii) (s : string) : option string :=
  match s with
  | EmptyString => None
  | String d EmptyString => if Ascii.eqb c d then Some EmptyString else None
  | String d r => option_map (String d) (without_last c r)
  end.

Definition loads (v : value) : option value :=
  match v with
  | VStr (String "["%char body) =>
      match without_last "]"%char body with
      | Some EmptyString => Some (VList [])
      | Some inner => option_map VList (loads_items (split_items inner EmptyString))
      | None => None
      end
  | VStr s => loads_scalar s
  | _ => None
  end.

(** A connection that accepts every query: a write affects one row, the
    n-th insert generates the id n. *)
Definition is_insert (q : query) : bool :=
  match q with InsertGetId _ _ => true | _ => false end.

Definition answer (history : list query) (q : query) : option value :=
  match q with
  | InsertGetId _ _ =>
      Some (VInt (Z.of_nat (S (List.length (filter is_insert history)))))
  | _ => Some (VInt 1)
  end.

(** The clock: one second later at each reading. *)
Definition time (n : nat) : Z := (1700000000000000 + 1000000 * Z.of_nat n)%Z.

Definition collaborators : Externals := {|
  py_ne := fun a b => negb (py_eq a b);
  py_int := to_int;
  py_float := to_float;
  py_str := to_str;
  arrow_get := to_arrow;
  clock := time;
  isoformat := fun _ => None;
  json_dumps := dumps;
  json_loads := loads;
  respond := answer
|}.

(** The same collaborators behind a connection that is down: every
    query raises. *)
Definition offline : Externals := {|
  py_ne := fun a b => negb (py_eq a b);
  py_int := to_int;
  py_float := to_float;
  py_str := to_str;
  arrow_get := to_arrow;
  clock := time;
  isoformat := fun _ => None;
  json_dumps := dumps;
  json_loads := loads;
  respond := fun _ _ => None
|}.

End Reference.

(** ** Instances to run the model on *)

Module Examples.

(** A row of the users table and the instance hydrated from it. *)
Definition row : pydict value :=
  [(Some "id", VInt 1); (Some "name", VStr "a")].

Definition user : Model :=
  mkModel (Some "id") true [] ["*"] false [] [] true [] true [] row row.

Definition loaded : World := mkWorld user [] 0.

(** The same instance after [name] and the key itself were set. *)
Definition edited : World :=
  mkWorld (with_attributes [(Some "id", VInt 7); (Some "name", VStr "b")] user)
          [] 0.

(** The world [edited] is in once its timestamps are stamped, and the
    update that writes it. *)
Definition edited_stamped : World :=
  mkWorld (with_attributes
             [(Some "id", VInt 7); (Some "name", VStr "b");
              (Some "updated_at", VDatetime 1700000000000000)] user)
          [] 1.

Definition edited_update : query :=
  Update [(Some "id", VInt 1)]
         [(Some "id", VInt 7); (Some "name", VStr "b");
          (Some "updated_at", VDatetime 1700000000000000)].

(** An instance that was never saved. *)
Definition brand_new : World :=
  mkWorld (mkModel (Some "id") true [] ["*"] false [] [] true [] false []
                   [] [(Some "name", VStr "c")])
          [] 0.

(** The same once its timestamps are stamped. *)
Definition brand_new_stamped : World :=
  mkWorld (with_attributes
             [(Some "name", VStr "c");
              (Some "updated_at", VDatetime 1700000000000000);
              (Some "created_at", VDatetime 1700000000000000)]
             (self brand_new))
          [] 1.


(** A type that casts [data], and one instance of it for each way of
    spelling a structured cast. *)
Definition document (cast : string) : World :=
  mkWorld (mkModel (Some "id") true [] ["*"] false [] [] true
                   [(Some "data", cast)] false [] [] [])
          [] 0.

(** A persisted measurement whose reading is not a number. *)
Definition reading : pydict value :=
  [(Some "id", VInt 1); (Some "x", VFloat S754_nan)].

Definition measurement : World :=
  mkWorld (mkModel (Some "id") true [] ["*"] false [] [] true [] true []
                   reading reading)
          [] 0.


(** A type that opens [name] to mass assignment and hides [secret], and
    a persisted instance of it. *)
Definition account_row : pydict value :=
  [(Some "id", VInt 1); (Some "name", VStr "a"); (Some "secret", VStr "s")].

Definition account : World :=
  mkWorld (mkModel (Some "id") true ["name"] ["*"] false ["secret"] [] true []
                   true [] account_row account_row)
          [] 0.

(** A new instance of a type without timestamps whose key is not
    generated. *)
Definition tagged : World :=
  mkWorld (mkModel (Some "code") false [] ["*"] false [] [] false [] false []
                   [] [(Some "code", VStr "x")])
          [] 0.

End Examples.

(** ** Reading aids for the statements *)

Section Aids.
Context {E : Externals}.

(** The value [set_attribute] stores under [key] when it is given [v]:
    a date column keeps the naive datetime of a true value, a column
    with a structured cast keeps the JSON text. *)
Definition storage_form (m : Model) (key : pykey) (v : value)
  : result value :=
  rbind (if andb (key_in key (get_dates m)) (truthy v)
         then from_datetime v else Ok v)
        (fun d =>
           if _is_json_castable m key
           then external (option_map VStr (json_dumps d)) else Ok d).

(** The world after [self.__attributes[key] = v]. *)
Definition stored (key : pykey) (v : value) (w : World) : World :=
  with_self (with_attributes (dict_set key v (attributes (self w))) (self w)) w.

(** The world after [sync_original]. *)
Definition synced (w : World) : World :=
  with_self (with_original (attributes (self w)) (self w)) w.

(** The world after the connection has been handed [q]. *)
Definition issued (q : query) (w : World) : World :=
  mkWorld (self w) (queries w ++ [q]) (ticks w).

(** The world after the clock has been read once, and the Arrow that
    reading gives. *)
Definition clock_read (w : World) : World :=
  mkWorld (self w) (queries w) (S (ticks w)).

Definition now (w : World) : value := VArrow (clock (ticks w)) 0.

(** The test of [get_dirty] on one entry: its key is not in the
    snapshot, or its value differs from the one there. *)
Definition dirty_entry (m : Model) (kv : pykey * value) : bool :=
  match dict_get (fst kv) (original m) with
  | None => true
  | Some o => py_ne (snd kv) o
  end.

(** The attributes [a] keep every dirty entry of [m], and unique keys
    if those of [m] are. *)
Definition keeps_dirty (m : Model) (a : pydict value) : Prop :=
  (forall kv, In kv (get_dirty m) -> In kv (get_dirty (with_attributes a m))) /\
  (NoDup (map fst (attributes m)) -> NoDup (map fst a)).



(** [_get_dictable_items] keeps the column [key]: it is in [visible], or
    [visible] is empty and the column is neither hidden nor marked with an
    underscore. *)
Definition dictable (m : Model) (key : string) : bool :=
  if Nat.ltb 0 (List.length (visible m)) then str_in key (visible m)
  else andb (negb (str_in key (hidden m))) (negb (starts_with_underscore key)).

(** [e] is a [MassAssignmentError]. *)
Definition is_mass_assignment_error (e : exn) : bool :=
  match e with MassAssignmentError _ => true | _ => false end.

(** The outcome is a raised [MassAssignmentError]. *)
Definition raises_mass_assignment {A} (r : result A) : bool :=
  match r with Raise e => is_mass_assignment_error e | Ok _ => false end.
End Aids.

(** What a class declares and no method changes. *)
Definition declarations (m : Model) :=
  (primary_key m, incrementing m, fillable m, guarded m,
   hidden m, visible m, timestamps m, casts m).

(** [s] has a ['.']. *)
Fixpoint has_dot (s : string) : bool :=
  match s with
  | EmptyString => false
  | String c r => orb (Ascii.eqb c "."%char) (has_dot r)
  end.

(** The instance [new_from_builder] makes of a row. *)
Definition hydrated (class : Model) (row : pydict value) : Model :=
  mkModel (primary_key class) (incrementing class) (fillable class)
    (guarded class) (unguarded class) (hidden class) (visible class)
    (timestamps class) (casts class) true [] row row.

(** [_get_dictable_items] keeps the key [k]. *)
Definition dictable_key (m : Model) (k : pykey) : bool :=
  match k with Some name => dictable m name | None => false end.

(** The insert that [save] issues for the attributes [a]. *)
Definition insert_query (m : Model) (a : pydict value) : query :=
  if incrementing m then InsertGetId a (primary_key m) else Insert a.

(** The attributes [replicate] hands to the copy: all but the primary
    key and the two timestamps. *)
Definition copied (m : Model) : pydict value :=
  filter (fun kv => negb (pykey_in (fst kv)
                            [get_key_name m; Some CREATED_AT; Some UPDATED_AT]))
         (attributes m).

(** * Properties *)

Unset Implicit Arguments.

(** ** Keys and dictionaries *)

Lemma key_eqb_refl (k : pykey) : key_eqb k k = true.
Proof. destruct k; simpl; auto using String.eqb_refl. Qed.

Lemma key_eqb_eq (a b : pykey) : key_eqb a b = true <-> a = b.
Proof.
  destruct a, b; simpl; split; intro H; try discriminate; auto.
  - apply String.eqb_eq in H. now subst.
  - injection H as ->. apply String.eqb_refl.
Qed.

Lemma key_eqb_neq (a b : pykey) : key_eqb a b = false <-> a <> b.
Proof.
  split.
  - intros H Heq. subst. rewrite key_eqb_refl in H. discriminate.
  - intro N. destruct (key_eqb a b) eqn:Hk; auto.
    apply key_eqb_eq in Hk. contradiction.
Qed.

Lemma str_in_In (x : string) (l : list string) : str_in x l = true <-> In x l.
Proof.
  unfold str_in. rewrite existsb_exists. split.
  - intros [y [Hy Hxy]]. apply String.eqb_eq in Hxy. now subst.
  - intro H. exists x. split; auto using String.eqb_refl.
Qed.

Lemma is_star_eq (l : list string) : is_star l = true <-> l = ["*"].
Proof.
  destruct l as [|x [|y r]]; simpl; split; intro H; try discriminate.
  - apply String.eqb_eq in H. now subst.
  - injection H as ->. reflexivity.
Qed.

Lemma dict_empty_length {V} (d : pydict V) :
  Nat.ltb 0 (List.length d) = negb (dict_empty d).
Proof. destruct d; reflexivity. Qed.

(** ** The guard policy *)

Section Guard.
Context {E : Externals}.

(** C6.  [is_fillable] decides in this order: the unguarded flag, then
    membership in [fillable], then [is_guarded], and last "[fillable] is
    empty and the key does not start with an underscore"; [is_guarded]
    holds exactly of the keys of [guarded], or of every key when
    [guarded] is [['*']]. *)
Theorem is_fillable_decision_order (m : Model) (key : string) :
  (unguarded m = true -> is_fillable m key = true) /\
  (unguarded m = false -> In key (fillable m) -> is_fillable m key = true) /\
  (unguarded m = false -> ~ In key (fillable m) ->
   is_guarded m key = true -> is_fillable m key = false) /\
  (unguarded m = false -> ~ In key (fillable m) ->
   is_guarded m key = false ->
   (is_fillable m key = true <->
    fillable m = [] /\ starts_with_underscore key = false)) /\
  (is_guarded m key = true <-> In key (guarded m) \/ guarded m = ["*"]).
Proof.
  unfold is_fillable, is_guarded.
  repeat split.
  - intros ->. reflexivity.
  - intros -> Hin. apply str_in_In in Hin. now rewrite Hin.
  - intros -> Hnot Hg.
    destruct (str_in key (fillable m)) eqn:Hf.
    + apply str_in_In in Hf. contradiction.
    + now rewrite Hg.
  - destruct (str_in key (fillable m)) eqn:Hf.
    + apply str_in_In in Hf. contradiction.
    + rewrite H, H1 in H2. destruct (fillable m); simpl in H2; [reflexivity | discriminate].
  - destruct (str_in key (fillable m)) eqn:Hf.
    + apply str_in_In in Hf. contradiction.
    + rewrite H, H1 in H2. destruct (fillable m); simpl in H2; [|discriminate].
      now destruct (starts_with_underscore key).
  - intros [Hnil Hu]. rewrite H, H1, Hnil, Hu.
    destruct (str_in key []) eqn:Hf; reflexivity.
  - intro H. apply orb_true_iff in H as [H | H].
    + left. now apply str_in_In.
    + right. now apply is_star_eq.
  - intros [H | H]; apply orb_true_iff.
    + left. now apply str_in_In.
    + right. now apply is_star_eq.
Qed.
End Guard.

(** ** Writing one attribute *)

Section Store.
Context {E : Externals}.

Lemma set_attribute_run (key : pykey) (v : value) (w : World) :
  set_attribute key v w =
  match storage_form (self w) key v with
  | Ok s => (Ok tt, stored key s w)
  | Raise e => (Raise e, w)
  end.
Proof.
  unfold set_attribute, storage_form, bind, get_self, lift, ret, modify_self, stored.
  destruct (andb (key_in key (get_dates (self w))) (truthy v)).
  - destruct (from_datetime v) as [d|e]; simpl; [|reflexivity].
    destruct (_is_json_castable (self w) key); [|reflexivity].
    destruct (json_dumps d); reflexivity.
  - simpl. destruct (_is_json_castable (self w) key); [|reflexivity].
    destruct (json_dumps v); reflexivity.
Qed.

Lemma naive_error (v : value) (e : exn) :
  naive v = Raise e -> is_mass_assignment_error e = false.
Proof. destruct v; simpl; intro H; inversion H; reflexivity. Qed.

Lemma external_error {A} (o : option A) (e : exn) :
  external o = Raise e -> e = External.
Proof. destruct o; simpl; intro H; inversion H; reflexivity. Qed.

Lemma from_datetime_error (v : value) (e : exn) :
  from_datetime v = Raise e -> is_mass_assignment_error e = false.
Proof.
  unfold from_datetime, as_datetime.
  destruct (is_Arrow v); [apply naive_error|].
  destruct (arrow_get v) as [a|]; simpl.
  - intro H. inversion H; reflexivity.
  - intro H. inversion H; reflexivity.
Qed.

(** What [set_attribute] raises comes from arrow or simplejson. *)
Lemma storage_form_error (m : Model) (key : pykey) (v : value) (e : exn) :
  storage_form m key v = Raise e -> is_mass_assignment_error e = false.
Proof.
  unfold storage_form.
  destruct (andb (key_in key (get_dates m)) (truthy v)).
  - destruct (from_datetime v) as [d|e'] eqn:Hd; simpl.
    + destruct (_is_json_castable m key); [|discriminate].
      intro H. apply external_error in H. now subst.
    + intro H. inversion H; subst. eapply from_datetime_error; eauto.
  - simpl. destruct (_is_json_castable m key); [|discriminate].
    intro H. apply external_error in H. now subst.
Qed.
End Store.

(** ** Mass assignment *)

Section Fill.
Context {E : Externals}.

Lemma fill_items_cons (tg : bool) (key : string) (v : value)
      (rest : list (string * value)) (w : World) :
  fill_items tg ((key, v) :: rest) w =
  let k := _remove_table_from_key key in
  if is_fillable (self w) k then
    match storage_form (self w) (Some k) v with
    | Ok s => fill_items tg rest (stored (Some k) s w)
    | Raise e => (Raise e, w)
    end
  else if tg then (Raise (MassAssignmentError k), w)
  else fill_items tg rest w.
Proof.
  simpl. unfold bind at 1. unfold get_self at 1. unfold bind at 1.
  destruct (is_fillable (self w) (_remove_table_from_key key)).
  - rewrite set_attribute_run.
    destruct (storage_form (self w) (Some (_remove_table_from_key key)) v);
      reflexivity.
  - destruct tg; reflexivity.
Qed.

(** Without total guarding the loop never raises the error. *)
Lemma fill_items_partly_guarded (items : list (string * value)) (w : World) :
  raises_mass_assignment (fst (fill_items false items w)) = false.
Proof.
  revert w. induction items as [|[key v] rest IH]; intro w.
  - reflexivity.
  - rewrite fill_items_cons. cbv zeta.
    destruct (is_fillable (self w) (_remove_table_from_key key)); [|apply IH].
    destruct (storage_form (self w) (Some (_remove_table_from_key key)) v)
      as [s|e] eqn:Hs; [apply IH|].
    simpl. eapply storage_form_error; eauto.
Qed.

(** Nor does it while the unguarded flag is set. *)
Lemma fill_items_unguarded (tg : bool) (items : list (string * value))
      (w : World) :
  unguarded (self w) = true ->
  raises_mass_assignment (fst (fill_items tg items w)) = false.
Proof.
  revert w. induction items as [|[key v] rest IH]; intros w Hu.
  - reflexivity.
  - rewrite fill_items_cons. cbv zeta.
    unfold is_fillable at 1. rewrite Hu.
    destruct (storage_form (self w) (Some (_remove_table_from_key key)) v)
      as [s|e] eqn:Hs.
    + apply IH. exact Hu.
    + simpl. eapply storage_form_error; eauto.
Qed.

(** A totally guarded model whose flag is down accepts no key. *)
Lemma totally_guarded_rejects (m : Model) (key : string) :
  totally_guarded m = true -> unguarded m = false ->
  is_fillable m key = false.
Proof.
  unfold totally_guarded, is_fillable, is_guarded.
  intros Htg ->. apply andb_true_iff in Htg as [Hlen Hstar].
  destruct (fillable m); [|discriminate].
  simpl. rewrite Hstar. now rewrite orb_true_r.
Qed.

Lemma totally_guarded_passes_all (m : Model) (input : list (string * value)) :
  totally_guarded m = true -> _fillable_from_dict m input = input.
Proof.
  unfold totally_guarded, _fillable_from_dict. intro Htg.
  apply andb_true_iff in Htg as [Hlen _].
  destruct (fillable m); [reflexivity | discriminate].
Qed.

Lemma fill_run (input : list (string * value)) (w : World) :
  fill input w =
  fill_items (totally_guarded (self w)) (_fillable_from_dict (self w) input) w.
Proof. reflexivity. Qed.

(** What [fill] does when it raises the error: it stops at the first
    entry and leaves the world as it found it. *)
Lemma fill_raise_inv (input : list (string * value)) (w : World) :
  raises_mass_assignment (fst (fill input w)) = true ->
  totally_guarded (self w) = true /\ unguarded (self w) = false /\
  exists key v rest,
    input = (key, v) :: rest /\
    fill input w = (Raise (MassAssignmentError (_remove_table_from_key key)), w).
Proof.
  rewrite fill_run. intro Hr.
  destruct (totally_guarded (self w)) eqn:Htg.
  2:{ rewrite fill_items_partly_guarded in Hr. discriminate. }
  destruct (unguarded (self w)) eqn:Hu.
  1:{ rewrite fill_items_unguarded in Hr by exact Hu. discriminate. }
  rewrite totally_guarded_passes_all in * by exact Htg.
  repeat split.
  destruct input as [|[key v] rest]; [discriminate|].
  exists key, v, rest. split; [reflexivity|].
  rewrite fill_items_cons. cbv zeta.
  now rewrite totally_guarded_rejects.
Qed.

(** [totally_guarded] in the words of the declarations: nothing is
    listed as fillable and the guarded list is exactly the star. *)
Lemma totally_guarded_spec (m : Model) :
  totally_guarded m = true <-> fillable m = [] /\ guarded m = ["*"].
Proof.
  unfold totally_guarded. rewrite andb_true_iff, is_star_eq.
  split; intros [Hf Hg]; (split; [|exact Hg]).
  - destruct (fillable m); [reflexivity | discriminate].
  - now rewrite Hf.
Qed.

(** C2.  Protected [fill] raises [MassAssignmentError] exactly when the
    record is totally guarded, that is its fillable list is empty and
    its guarded list is ['*'], and the input holds a key that is neither
    in the fillable list nor covered by the unguarded flag (the flag is
    down); this is what [totally_guarded] computes; [force_fill] never
    raises the error, on any input. *)
Theorem fill_raises_iff_totally_guarded
        (input : list (string * value)) (w : World) :
  (raises_mass_assignment (fst (fill input w)) = true <->
   (fillable (self w) = [] /\ guarded (self w) = ["*"]) /\
   exists kv, In kv input /\
              ~ In (_remove_table_from_key (fst kv)) (fillable (self w)) /\
              unguarded (self w) = false) /\
  (totally_guarded (self w) = true <->
   fillable (self w) = [] /\ guarded (self w) = ["*"]) /\
  raises_mass_assignment (fst (force_fill input w)) = false.
Proof.
  split; [split|split; [apply totally_guarded_spec|]].
  - intro Hr. destruct (fill_raise_inv _ _ Hr)
      as (Htg & Hu & key & v & rest & -> & _).
    apply totally_guarded_spec in Htg. split; [exact Htg|].
    exists (key, v). split; [now left|]. split; [|exact Hu].
    destruct Htg as [-> _]. intros [].
  - intros (Hdecl & [k v] & Hin & _ & Hu).
    apply totally_guarded_spec in Hdecl as Htg.
    rewrite fill_run, Htg.
    rewrite totally_guarded_passes_all by exact Htg.
    destruct input as [|[key v'] rest]; [contradiction|].
    rewrite fill_items_cons. cbv zeta.
    now rewrite totally_guarded_rejects.
  - unfold force_fill, unguard, reguard, bind, modify_self.
    rewrite fill_run.
    pose proof (fill_items_unguarded
                  (totally_guarded (self (with_self (with_unguarded true (self w)) w)))
                  (_fillable_from_dict (self (with_self (with_unguarded true (self w)) w)) input)
                  (with_self (with_unguarded true (self w)) w) eq_refl) as Hn.
    destruct (fill_items _ _ _) as [[u|e] w']; simpl in *; [reflexivity|exact Hn].
Qed.

(** C9.  When protected [fill] raises [MassAssignmentError] it has set
    nothing: the error comes from the first entry of the input, and the
    attributes, the original snapshot and the rest of the world are as
    they were before the call. *)
Theorem fill_error_leaves_model_unchanged
        (input : list (string * value)) (w : World) :
  raises_mass_assignment (fst (fill input w)) = true ->
  attributes (self (snd (fill input w))) = attributes (self w) /\
  original (self (snd (fill input w))) = original (self w) /\
  snd (fill input w) = w /\
  exists key v rest,
    input = (key, v) :: rest /\
    fst (fill input w) = Raise (MassAssignmentError (_remove_table_from_key key)).
Proof.
  intro Hr. destruct (fill_raise_inv _ _ Hr)
    as (_ & _ & key & v & rest & Hin & Hrun).
  rewrite Hrun. simpl. repeat split.
  exists key, v, rest. split; [exact Hin | reflexivity].
Qed.
End Fill.

(** ** Dictionaries under assignment and filtering *)

Section DictFacts.
Context {V : Type}.
Implicit Types (d : pydict V) (k : pykey) (p : pykey * V -> bool).

Lemma dict_get_set_same k (v : V) d : dict_get k (dict_set k v d) = Some v.
Proof.
  induction d as [|[k' v'] r IH]; simpl.
  - now rewrite key_eqb_refl.
  - destruct (key_eqb k k') eqn:Hk; simpl; rewrite Hk; auto.
Qed.

Lemma dict_get_set_other k k' (v : V) d :
  k <> k' -> dict_get k (dict_set k' v d) = dict_get k d.
Proof.
  intro N. induction d as [|[a x] r IH]; simpl.
  - apply key_eqb_neq in N. now rewrite N.
  - destruct (key_eqb k' a) eqn:Ha; simpl.
    + apply key_eqb_eq in Ha. subst a.
      apply key_eqb_neq in N. now rewrite N.
    + destruct (key_eqb k a); auto.
Qed.

Lemma dict_get_In k (v : V) d : dict_get k d = Some v -> In (k, v) d.
Proof.
  induction d as [|[a x] r IH]; simpl; [discriminate|].
  destruct (key_eqb k a) eqn:Ha.
  - intro H. injection H as ->. apply key_eqb_eq in Ha. subst a. now left.
  - intro H. right. auto.
Qed.

Lemma dict_has_In k (v : V) d : In (k, v) d -> dict_has k d = true.
Proof.
  unfold dict_has. induction d as [|[a x] r IH]; simpl; [contradiction|].
  intros [H | H].
  - injection H as -> ->. now rewrite key_eqb_refl.
  - destruct (key_eqb k a); auto.
Qed.

Lemma In_dict_set_other k (v : V) (kv : pykey * V) d :
  fst kv <> k -> In kv d -> In kv (dict_set k v d).
Proof.
  intros N. induction d as [|[a x] r IH]; simpl; [contradiction|].
  intros [H | H].
  - subst kv. simpl in N. apply not_eq_sym in N. apply key_eqb_neq in N.
    rewrite N. now left.
  - destruct (key_eqb k a); [now right | right; auto].
Qed.

(** Whether a filtered dictionary has [k] does not depend on what is
    stored under another key. *)
Lemma dict_has_filter_set_other p k k' (v : V) d :
  k <> k' ->
  dict_has k (filter p (dict_set k' v d)) = dict_has k (filter p d).
Proof.
  intro N. pose proof N as Nb. apply key_eqb_neq in Nb.
  unfold dict_has.
  induction d as [|[a x] r IH]; simpl.
  - destruct (p (k', v)); simpl; [now rewrite Nb | reflexivity].
  - destruct (key_eqb k' a) eqn:Ha; simpl.
    + apply key_eqb_eq in Ha. subst a.
      destruct (p (k', v)), (p (k', x)); simpl; rewrite ?Nb; reflexivity.
    + destruct (p (a, x)); simpl; [|exact IH].
      destruct (key_eqb k a); [reflexivity | exact IH].
Qed.

Lemma dict_has_false_keys k d : dict_has k d = false -> ~ In k (map fst d).
Proof.
  unfold dict_has. induction d as [|[a x] r IH]; simpl; [tauto|].
  destruct (key_eqb k a) eqn:Ha; [discriminate|].
  intros H [Heq | Hin]; [|now apply IH].
  subst a. rewrite key_eqb_refl in Ha. discriminate.
Qed.

Lemma dict_set_keys k (v : V) d :
  map fst (dict_set k v d) =
  if dict_has k d then map fst d else map fst d ++ [k].
Proof.
  unfold dict_has. induction d as [|[a x] r IH]; simpl; [reflexivity|].
  destruct (key_eqb k a) eqn:Ha; simpl; [reflexivity|].
  rewrite IH. destruct (dict_get k r); reflexivity.
Qed.

Lemma dict_set_keys_NoDup k (v : V) d :
  NoDup (map fst d) -> NoDup (map fst (dict_set k v d)).
Proof.
  intro H. rewrite dict_set_keys.
  destruct (dict_has k d) eqn:Hk; [exact H|].
  apply dict_has_false_keys in Hk.
  clear - H Hk. induction (map fst d) as [|a l IH]; simpl.
  - constructor; [intros [] | constructor].
  - inversion H as [|? ? Hnot Hl]; subst. constructor.
    + rewrite in_app_iff. intros [Hin | [Heq | []]]; [contradiction|].
      subst. apply Hk. now left.
    + apply IH; [exact Hl|]. intro Hin. apply Hk. now right.
Qed.

(** With unique keys, looking up the key of an entry finds the entry. *)
Lemma dict_get_In_NoDup k (v : V) d :
  NoDup (map fst d) -> In (k, v) d -> dict_get k d = Some v.
Proof.
  induction d as [|[a x] r IH]; simpl; [contradiction|].
  intros H [Heq | Hin].
  - injection Heq as -> ->. now rewrite key_eqb_refl.
  - inversion H as [|? ? Hnot Hr]; subst.
    destruct (key_eqb k a) eqn:Ha; [|auto].
    apply key_eqb_eq in Ha. subst a. exfalso. apply Hnot.
    apply in_map_iff. now exists (k, v).
Qed.
End DictFacts.

(** ** Timestamps *)

Section Timestamps.
Context {E : Externals}.

Lemma self_stored (k : pykey) (s : value) (w : World) :
  self (stored k s w) =
  with_attributes (dict_set k s (attributes (self w))) (self w).
Proof. reflexivity. Qed.

Lemma self_clock_read (w : World) : self (clock_read w) = self w.
Proof. reflexivity. Qed.

Lemma setattr_cases (key : string) (v : value) (w w1 : World) (r : result unit) :
  setattr_ key v w = (r, w1) ->
  (exists e, r = Raise e /\ w1 = w) \/
  (exists s, storage_form (self w) (Some key) v = Ok s /\
             r = Ok tt /\ w1 = stored (Some key) s w).
Proof.
  unfold setattr_, bind, get_self.
  assert (Hset : set_attribute (Some key) v w = (r, w1) ->
                 (exists e, r = Raise e /\ w1 = w) \/
                 (exists s, storage_form (self w) (Some key) v = Ok s /\
                            r = Ok tt /\ w1 = stored (Some key) s w)).
  { rewrite set_attribute_run.
    destruct (storage_form (self w) (Some key) v) as [s|e]; intro H;
      inversion H; subst; [right; eauto | left; eauto]. }
  destruct (get_attribute (self w) (Some key)) as [x|[]]; try exact Hset;
    unfold raise; intro H; inversion H; subst; left; eauto.
Qed.

Lemma update_timestamps_run (w : World) :
  _update_timestamps w =
  match (if is_dirty (self w) [UPDATED_AT] then (Ok tt, clock_read w)
         else setattr_ UPDATED_AT (now w) (clock_read w)) with
  | (Raise e, w1) => (Raise e, w1)
  | (Ok _, w1) =>
      if orb (exists_ (self w1)) (is_dirty (self w1) [CREATED_AT])
      then (Ok tt, w1)
      else setattr_ CREATED_AT (now w) w1
  end.
Proof.
  unfold _update_timestamps, bind, fresh_timestamp, get_self,
    set_updated_at, set_created_at, ret, clock_read, now.
  change (self (mkWorld (self w) (queries w) (S (ticks w)))) with (self w).
  destruct (is_dirty (self w) [UPDATED_AT]); unfold negb at 1; cbv beta iota;
    change (self (mkWorld (self w) (queries w) (S (ticks w)))) with (self w).
  - destruct (exists_ (self w)); unfold negb, andb, orb; [reflexivity|].
    destruct (is_dirty (self w) [CREATED_AT]); reflexivity.
  - destruct (setattr_ UPDATED_AT _ _) as [[u|e] w1]; [|reflexivity].
    destruct (exists_ (self w1)); unfold negb, andb, orb; [reflexivity|].
    destruct (is_dirty (self w1) [CREATED_AT]); reflexivity.
Qed.

Lemma is_dirty_one (m : Model) (key : string) :
  is_dirty m [key] = dict_has (Some key) (get_dirty m).
Proof. unfold is_dirty. simpl. apply orb_false_r. Qed.

(** Storing under one column does not change whether another is dirty. *)
Lemma is_dirty_stored_other (m : Model) (key other : string) (s : value) :
  key <> other ->
  is_dirty (with_attributes (dict_set (Some other) s (attributes m)) m) [key] =
  is_dirty m [key].
Proof.
  intro N. rewrite !is_dirty_one. unfold get_dirty. simpl.
  apply dict_has_filter_set_other. congruence.
Qed.

(** Under a timestamp column without a structured cast, the reading of
    the clock is stored as its naive datetime. *)
Lemma storage_form_now (m : Model) (column : string) (w : World) :
  str_in column [CREATED_AT; UPDATED_AT] = true ->
  _is_json_castable m (Some column) = false ->
  storage_form m (Some column) (now w) = Ok (VDatetime (clock (ticks w))).
Proof.
  intros Hcol Hjson. unfold storage_form.
  assert (Hdate : key_in (Some column) (get_dates m) = true).
  { simpl. apply str_in_In. unfold get_dates. apply in_or_app. right.
    now apply str_in_In. }
  rewrite Hdate, Hjson. reflexivity.
Qed.

(** What [_update_timestamps] leaves when it returns: the clock read
    once, no query, and the attributes with the storage form of that one
    reading under each column it found clean. *)
Lemma update_timestamps_inv (w w' : World) :
  _update_timestamps w = (Ok tt, w') ->
  exists a1 a2,
    (if is_dirty (self w) [UPDATED_AT] then a1 = attributes (self w)
     else exists s,
         storage_form (self w) (Some UPDATED_AT) (now w) = Ok s /\
         a1 = dict_set (Some UPDATED_AT) s (attributes (self w))) /\
    (if orb (exists_ (self w)) (is_dirty (self w) [CREATED_AT]) then a2 = a1
     else exists s,
         storage_form (self w) (Some CREATED_AT) (now w) = Ok s /\
         a2 = dict_set (Some CREATED_AT) s a1) /\
    w' = mkWorld (with_attributes a2 (self w)) (queries w) (S (ticks w)).
Proof.
  rewrite update_timestamps_run.
  assert (Hc : CREATED_AT <> UPDATED_AT) by discriminate.
  destruct (is_dirty (self w) [UPDATED_AT]) eqn:Hu.
  - rewrite self_clock_read.
    destruct (orb (exists_ (self w)) (is_dirty (self w) [CREATED_AT])) eqn:Hx.
    + intro H. inversion H; subst. exists (attributes (self w)), (attributes (self w)).
      repeat split. unfold clock_read. destruct w as [[] ? ?]; reflexivity.
    + intro H. apply setattr_cases in H as [(e & He & _) | (s & Hs & _ & ->)];
        [discriminate|].
      exists (attributes (self w)), (dict_set (Some CREATED_AT) s (attributes (self w))).
      repeat split. exists s. split; [exact Hs | reflexivity].
  - destruct (setattr_ UPDATED_AT (now w) (clock_read w)) as [[u|e] w1] eqn:Hset;
      [|discriminate].
    apply setattr_cases in Hset as [(e & He & _) | (s & Hs & _ & ->)];
      [discriminate|].
    rewrite self_stored, self_clock_read.
    change (exists_ (with_attributes _ (self w))) with (exists_ (self w)).
    rewrite (is_dirty_stored_other (self w) CREATED_AT UPDATED_AT s Hc).
    destruct (orb (exists_ (self w)) (is_dirty (self w) [CREATED_AT])) eqn:Hx.
    + intro H. inversion H; subst.
      exists (dict_set (Some UPDATED_AT) s (attributes (self w))),
             (dict_set (Some UPDATED_AT) s (attributes (self w))).
      repeat split. exists s. split; [exact Hs | reflexivity].
    + intro H. apply setattr_cases in H as [(e & He & _) | (s' & Hs' & _ & ->)];
        [discriminate|].
      exists (dict_set (Some UPDATED_AT) s (attributes (self w))),
             (dict_set (Some CREATED_AT) s'
                       (dict_set (Some UPDATED_AT) s (attributes (self w)))).
      repeat split.
      * exists s. split; [exact Hs | reflexivity].
      * exists s'. split; [exact Hs' | reflexivity].
Qed.

Lemma keeps_dirty_refl (m : Model) : keeps_dirty m (attributes m).
Proof. split; auto. Qed.

Lemma get_dirty_with_attributes (m : Model) (a : pydict value) :
  get_dirty (with_attributes a m) = filter (dirty_entry m) a.
Proof. reflexivity. Qed.

Lemma keeps_dirty_set (m : Model) (a : pydict value) (key : string) (s : value) :
  keeps_dirty m a ->
  is_dirty (with_attributes a m) [key] = false ->
  keeps_dirty m (dict_set (Some key) s a).
Proof.
  intros [Hd Hn] Hclean. rewrite is_dirty_one in Hclean. split.
  - intros kv Hin. apply Hd in Hin.
    assert (Hk : fst kv <> Some key).
    { intro Hk. destruct kv as [k v]. simpl in Hk. subst k.
      apply dict_has_In in Hin. congruence. }
    rewrite get_dirty_with_attributes in *.
    apply filter_In in Hin as [Hin Hp]. apply filter_In. split; [|exact Hp].
    now apply In_dict_set_other.
  - intro H. apply dict_set_keys_NoDup. auto.
Qed.

(** Whatever its outcome, [_update_timestamps] reads the clock once,
    issues nothing and changes only attributes that were clean. *)
Lemma update_timestamps_frame (w w' : World) (r : result unit) :
  _update_timestamps w = (r, w') ->
  exists a,
    w' = mkWorld (with_attributes a (self w)) (queries w) (S (ticks w)) /\
    keeps_dirty (self w) a.
Proof.
  rewrite update_timestamps_run.
  assert (Hid : clock_read w =
                mkWorld (with_attributes (attributes (self w)) (self w))
                        (queries w) (S (ticks w))).
  { unfold clock_read. destruct w as [[] ? ?]; reflexivity. }
  assert (Hfirst : forall r1 w1,
             (if is_dirty (self w) [UPDATED_AT] then (Ok tt, clock_read w)
              else setattr_ UPDATED_AT (now w) (clock_read w)) = (r1, w1) ->
             exists a,
               w1 = mkWorld (with_attributes a (self w)) (queries w) (S (ticks w)) /\
               keeps_dirty (self w) a).
  { intros r1 w1. destruct (is_dirty (self w) [UPDATED_AT]) eqn:Hu.
    - intro H. inversion H; subst. exists (attributes (self w)).
      split; [exact Hid | apply keeps_dirty_refl].
    - intro H. apply setattr_cases in H as [(e & _ & ->) | (s & _ & _ & ->)].
      + exists (attributes (self w)). split; [exact Hid | apply keeps_dirty_refl].
      + exists (dict_set (Some UPDATED_AT) s (attributes (self w))).
        split; [reflexivity|].
        apply keeps_dirty_set; [apply keeps_dirty_refl|].
        destruct (self w); exact Hu. }
  destruct (if is_dirty (self w) [UPDATED_AT] then _ else _) as [[u|e] w1] eqn:H1.
  - destruct (Hfirst _ _ eq_refl) as (a & -> & Hk).
    change (self (mkWorld ?m _ _)) with m.
    destruct (orb _ _) eqn:Hx.
    + intro H. inversion H; subst. eauto.
    + intro H. apply setattr_cases in H as [(e & _ & ->) | (s & _ & _ & ->)];
        [eauto|].
      exists (dict_set (Some CREATED_AT) s a). split; [reflexivity|].
      apply keeps_dirty_set; [exact Hk|].
      apply orb_false_iff in Hx as [_ Hx]. exact Hx.
  - intro H. inversion H; subst. apply (Hfirst _ _ eq_refl).
Qed.

Lemma update_timestamps_if_enabled_frame
      (options : pydict value) (w w' : World) (r : result unit) :
  update_timestamps_if_enabled options w = (r, w') ->
  exists a t,
    w' = mkWorld (with_attributes a (self w)) (queries w) t /\
    keeps_dirty (self w) a.
Proof.
  unfold update_timestamps_if_enabled, bind, get_self.
  destruct (andb _ _).
  - intro H. apply update_timestamps_frame in H as (a & -> & Hk). eauto.
  - unfold ret. intro H. inversion H; subst.
    exists (attributes (self w')), (ticks w'). split; [|apply keeps_dirty_refl].
    destruct w' as [[] ? ?]; reflexivity.
Qed.
End Timestamps.

(** ** Save *)

Section Save.
Context {E : Externals}.

Lemma bind_ok_inv {A B} (c : M A) (f : A -> M B) (w w' : World) (r : B) :
  bind c f w = (Ok r, w') ->
  exists a w1, c w = (Ok a, w1) /\ f a w1 = (Ok r, w').
Proof.
  unfold bind. destruct (c w) as [[a|e] w1]; [eauto | discriminate].
Qed.

Lemma finish_save_run (options : pydict value) (w : World) :
  _finish_save options w = (Ok tt, synced w).
Proof.
  unfold _finish_save, bind, sync_original, modify_self, _touch_owners, ret.
  destruct (option_set options "touch"); reflexivity.
Qed.

Lemma run_run (q : query) (w : World) :
  run q w = (external (respond (queries w) q), issued q w).
Proof. reflexivity. Qed.

Lemma perform_update_run (query : Builder) (options : pydict value) (w : World) :
  _perform_update query options w =
  if dict_empty (get_dirty (self w)) then (Ok (VBool true), w)
  else
    match update_timestamps_if_enabled options w with
    | (Raise e, w1) => (Raise e, w1)
    | (Ok _, w1) =>
        if dict_empty (get_dirty (self w1)) then (Ok (VBool true), w1)
        else
          match _get_key_for_save_query (self w1) with
          | Raise e => (Raise e, w1)
          | Ok key =>
              let q := Update (where_ (get_key_name (self w1)) key query)
                              (get_dirty (self w1)) in
              (match respond (queries w1) q with
               | Some _ => Ok (VBool true)
               | None => Raise External
               end, issued q w1)
          end
    end.
Proof.
  unfold _perform_update. unfold bind at 1. unfold get_self at 1.
  unfold bind at 1. rewrite dict_empty_length.
  destruct (dict_empty (get_dirty (self w))); unfold negb; [reflexivity|].
  unfold bind at 1.
  destruct (update_timestamps_if_enabled options w) as [[u|e] w1]; [|reflexivity].
  unfold bind at 1. unfold get_self at 1. rewrite dict_empty_length.
  destruct (dict_empty (get_dirty (self w1))); unfold negb; [reflexivity|].
  unfold _set_keys_for_save_query, bind, get_self, lift, ret.
  destruct (_get_key_for_save_query (self w1)) as [key|e]; [|reflexivity].
  rewrite run_run. cbv zeta.
  destruct (respond (queries w1) _); reflexivity.
Qed.

Lemma save_run (options : pydict value) (w : World) :
  save options w =
  match (if exists_ (self w) then _perform_update [] options w
         else _perform_insert [] options w) with
  | (Ok saved, w1) => (Ok saved, if truthy saved then synced w1 else w1)
  | (Raise e, w1) => (Raise e, w1)
  end.
Proof.
  unfold save, new_query. unfold bind at 1. unfold ret at 1.
  unfold bind at 1. unfold get_self at 1. unfold bind at 1.
  destruct (exists_ (self w)).
  - destruct (_perform_update [] options w) as [[saved|e] w1]; [|reflexivity].
    unfold bind. destruct (truthy saved); [rewrite finish_save_run|]; reflexivity.
  - destruct (_perform_insert [] options w) as [[saved|e] w1]; [|reflexivity].
    unfold bind. destruct (truthy saved); [rewrite finish_save_run|]; reflexivity.
Qed.

Lemma filter_none {A} (p : A -> bool) (l : list A) :
  (forall x, In x l -> p x = false) -> filter p l = [].
Proof.
  induction l as [|x l IH]; intro H; [reflexivity|].
  simpl. rewrite (H x (or_introl eq_refl)). apply IH.
  intros y Hy. apply H. now right.
Qed.

Lemma dict_empty_nil {V} (d : pydict V) : dict_empty d = true <-> d = [].
Proof. destruct d; simpl; split; intro H; congruence. Qed.

Lemma keeps_dirty_nonempty (m : Model) (a : pydict value) :
  keeps_dirty m a -> get_dirty m <> [] -> get_dirty (with_attributes a m) <> [].
Proof.
  intros [Hk _] Hne Hnil. destruct (get_dirty m) as [|kv l] eqn:Hd; [congruence|].
  specialize (Hk kv (or_introl eq_refl)). rewrite Hnil in Hk. contradiction.
Qed.



(** A successful [save] of a persisted instance leaves a persisted
    instance whose snapshot is its attributes. *)
Lemma save_persisted_synced (options : pydict value) (w w1 : World) (r : value) :
  exists_ (self w) = true ->
  save options w = (Ok r, w1) ->
  exists a q t,
    w1 = mkWorld (with_original a (with_attributes a (self w))) q t /\
    keeps_dirty (self w) a.
Proof.
  intro Hex. rewrite save_run, Hex, perform_update_run.
  assert (Hsame : forall w0 : World,
             synced w0 =
             mkWorld (with_original (attributes (self w0))
                        (with_attributes (attributes (self w0)) (self w0)))
                     (queries w0) (ticks w0)).
  { intro w0. destruct w0 as [[] ? ?]. reflexivity. }
  destruct (dict_empty (get_dirty (self w))).
  - intro H. inversion H; subst. simpl truthy. cbv iota.
    exists (attributes (self w)), (queries w), (ticks w).
    split; [apply Hsame | apply keeps_dirty_refl].
  - destruct (update_timestamps_if_enabled options w) as [[u|e] w2] eqn:Hst;
      [|discriminate].
    destruct (update_timestamps_if_enabled_frame _ _ _ _ Hst) as (a & t & -> & Hk).
    change (self (mkWorld ?m _ _)) with m.
    destruct (dict_empty _).
    + intro H. inversion H; subst. simpl truthy. cbv iota.
      exists a, (queries w), t. split; [reflexivity | exact Hk].
    + destruct (_get_key_for_save_query _) as [key|e]; [|discriminate].
      cbv zeta. destruct (respond _ _); [|discriminate].
      intro H. inversion H; subst. simpl truthy. cbv iota.
      eexists a, _, t. split; [reflexivity | exact Hk].
Qed.

(** An instance whose snapshot is its attributes has nothing dirty, as
    long as its keys are unique and no value differs from itself. *)
Lemma synced_is_clean (m : Model) (a : pydict value) :
  NoDup (map fst a) ->
  (forall k v, In (k, v) a -> py_ne v v = false) ->
  get_dirty (with_original a (with_attributes a m)) = [].
Proof.
  intros Hn Hself. unfold get_dirty.
  change (original (with_original a _)) with a.
  change (attributes (with_original a (with_attributes a m))) with a.
  apply filter_none. intros [k v] Hin. simpl.
  rewrite (dict_get_In_NoDup k v a Hn Hin). eauto.
Qed.

(** C3.  [save] twice in a row on a persisted instance: after the first
    call has succeeded, the second finds nothing dirty, succeeds and
    leaves the world as it is, so it issues no query (and reads no
    clock).  The keys of the attributes are unique, as in every Python
    dictionary, and no stored value differs from itself under [!=]. *)
Theorem second_save_issues_no_query
        (options1 options2 : pydict value) (w w1 : World) (r : value) :
  exists_ (self w) = true ->
  NoDup (map fst (attributes (self w))) ->
  save options1 w = (Ok r, w1) ->
  (forall k v, In (k, v) (attributes (self w1)) -> py_ne v v = false) ->
  save options2 w1 = (Ok (VBool true), w1) /\
  queries (snd (save options2 w1)) = queries w1.
Proof.
  intros Hex Hn Hsave Hself.
  destruct (save_persisted_synced _ _ _ _ Hex Hsave) as (a & q & t & -> & [_ Hk]).
  specialize (Hk Hn).
  change (attributes (self (mkWorld (with_original a (with_attributes a (self w))) q t)))
    with a in Hself.
  assert (Hrun : save options2
                   (mkWorld (with_original a (with_attributes a (self w))) q t) =
                 (Ok (VBool true),
                  mkWorld (with_original a (with_attributes a (self w))) q t)).
  { rewrite save_run.
    change (exists_ (self (mkWorld (with_original a (with_attributes a (self w))) q t)))
      with (exists_ (self w)).
    rewrite Hex, perform_update_run.
    change (self (mkWorld ?m _ _)) with m.
    rewrite (synced_is_clean (self w) a Hk Hself). reflexivity. }
  rewrite Hrun. split; reflexivity.
Qed.

(** C10.  Whenever [save] returns, it returns [True]. *)
Theorem save_returns_true (options : pydict value) (w w' : World) (r : value) :
  save options w = (Ok r, w') -> r = VBool true.
Proof.
  rewrite save_run.
  assert (Hlast : forall (c : M unit) (w0 w1 : World) (x : value),
             bind c (fun _ => ret (VBool true)) w0 = (Ok x, w1) -> x = VBool true).
  { intros c w0 w1 x H. apply bind_ok_inv in H as (u & w2 & _ & H).
    inversion H. reflexivity. }
  assert (Hbranch : forall w1 saved,
             (if exists_ (self w) then _perform_update [] options w
              else _perform_insert [] options w) = (Ok saved, w1) ->
             saved = VBool true).
  { intros w1 saved. destruct (exists_ (self w)).
    - unfold _perform_update. intro H.
      apply bind_ok_inv in H as (m & w2 & _ & H). eapply Hlast; eauto.
    - unfold _perform_insert. intro H.
      apply bind_ok_inv in H as (u & w2 & _ & H).
      apply bind_ok_inv in H as (m & w3 & _ & H).
      apply bind_ok_inv in H as (u' & w4 & _ & H).
      eapply Hlast; eauto. }
  destruct (if exists_ (self w) then _ else _) as [[saved|e] w1] eqn:Hb;
    [|discriminate].
  intro H. inversion H; subst. eapply Hbranch; eauto.
Qed.

Lemma key_for_save_with_attributes (m : Model) (a : pydict value) (v0 : value) :
  dict_get (primary_key m) (original m) = Some v0 ->
  _get_key_for_save_query (with_attributes a m) = Ok v0.
Proof.
  unfold _get_key_for_save_query, get_key_name.
  change (primary_key (with_attributes a m)) with (primary_key m).
  change (original (with_attributes a m)) with (original m).
  now intros ->.
Qed.

(** C4.  The update of [save] is keyed on the primary key of the
    snapshot: [_get_key_for_save_query] answers the value recorded in
    [original], and the current attribute only when [original] has no
    such key.  So a persisted instance whose key attribute was changed
    in memory is written back, once, under the key it was loaded with;
    and whatever else is dirty, a query that [save] issues for a
    persisted instance is an update under that key. *)
Theorem update_keyed_on_original_key (options : pydict value) (w : World) :
  (forall v0,
      dict_get (primary_key (self w)) (original (self w)) = Some v0 ->
      _get_key_for_save_query (self w) = Ok v0) /\
  (forall v,
      dict_get (primary_key (self w)) (original (self w)) = None ->
      dict_get (primary_key (self w)) (attributes (self w)) = Some v ->
      _get_key_for_save_query (self w) = Ok v) /\
  (forall v0 v1 w1,
      exists_ (self w) = true ->
      dict_get (primary_key (self w)) (original (self w)) = Some v0 ->
      dict_get (primary_key (self w)) (attributes (self w)) = Some v1 ->
      py_ne v1 v0 = true ->
      update_timestamps_if_enabled options w = (Ok tt, w1) ->
      In (primary_key (self w), v1) (get_dirty (self w1)) /\
      queries (snd (save options w)) =
      queries w ++ [Update [(primary_key (self w), v0)] (get_dirty (self w1))]) /\
  (forall v0,
      exists_ (self w) = true ->
      dict_get (primary_key (self w)) (original (self w)) = Some v0 ->
      queries (snd (save options w)) = queries w \/
      exists dirty,
        queries (snd (save options w)) =
        queries w ++ [Update [(primary_key (self w), v0)] dirty]).
Proof.
  split; [|split; [|split]].
  - intros v0 H. unfold _get_key_for_save_query, get_key_name. now rewrite H.
  - intros v H0 H1. unfold _get_key_for_save_query, get_key_name.
    now rewrite H0, H1.
  - intros v0 v1 w1 Hex Ho Ha Hne Hst.
    assert (Hin : In (primary_key (self w), v1) (get_dirty (self w))).
    { unfold get_dirty. apply filter_In. split; [now apply dict_get_In|].
      simpl. now rewrite Ho. }
    destruct (update_timestamps_if_enabled_frame _ _ _ _ Hst) as (a & t & -> & Hk).
    change (self (mkWorld ?m _ _)) with m.
    split; [apply Hk; exact Hin|].
    rewrite save_run, Hex, perform_update_run, Hst.
    assert (Hne0 : get_dirty (self w) <> []).
    { intro Hnil. rewrite Hnil in Hin. contradiction. }
    pose proof (keeps_dirty_nonempty _ _ Hk Hne0) as Hne1.
    destruct (dict_empty (get_dirty (self w))) eqn:Hd;
      [apply dict_empty_nil in Hd; contradiction|].
    change (self (mkWorld ?m _ _)) with m.
    destruct (dict_empty (get_dirty (with_attributes a (self w)))) eqn:Hd1;
      [apply dict_empty_nil in Hd1; contradiction|].
    rewrite (key_for_save_with_attributes _ a _ Ho). cbv zeta.
    destruct (respond _ _); reflexivity.
  - intros v0 Hex Ho.
    rewrite save_run, Hex, perform_update_run.
    destruct (dict_empty (get_dirty (self w))); [left; reflexivity|].
    destruct (update_timestamps_if_enabled options w) as [[u|e] w1] eqn:Hst;
      destruct (update_timestamps_if_enabled_frame _ _ _ _ Hst) as (a & t & -> & Hk);
      [|left; reflexivity].
    change (self (mkWorld ?m _ _)) with m.
    destruct (dict_empty _); [left; reflexivity|].
    rewrite (key_for_save_with_attributes _ a _ Ho). cbv zeta.
    right. eexists. destruct (respond _ _); reflexivity.
Qed.

(** C7.  Stamping for a save.  A type without timestamps stamps
    nothing.  Otherwise [_update_timestamps] reads the clock once and
    stores that one reading under the updated-at column unless the
    column is already dirty, and under the created-at column unless the
    record exists or the column is already dirty; a column that was
    dirty before keeps the value it had.  What is stored is the naive
    datetime of the reading, for a column without a structured cast. *)
Theorem timestamps_stamp_clean_columns (options : pydict value) (w : World) :
  (timestamps (self w) = false ->
   update_timestamps_if_enabled options w = (Ok tt, w)) /\
  (timestamps (self w) = true -> option_set options "timestamps" = true ->
   update_timestamps_if_enabled options w = _update_timestamps w) /\
  (forall w',
      _update_timestamps w = (Ok tt, w') ->
      ticks w' = S (ticks w) /\
      queries w' = queries w /\
      (exists a1,
          (if is_dirty (self w) [UPDATED_AT] then a1 = attributes (self w)
           else exists s,
               storage_form (self w) (Some UPDATED_AT) (now w) = Ok s /\
               a1 = dict_set (Some UPDATED_AT) s (attributes (self w))) /\
          (if orb (exists_ (self w)) (is_dirty (self w) [CREATED_AT])
           then attributes (self w') = a1
           else exists s,
               storage_form (self w) (Some CREATED_AT) (now w) = Ok s /\
               attributes (self w') = dict_set (Some CREATED_AT) s a1)) /\
      (is_dirty (self w) [UPDATED_AT] = true ->
       dict_get (Some UPDATED_AT) (attributes (self w')) =
       dict_get (Some UPDATED_AT) (attributes (self w))) /\
      (is_dirty (self w) [CREATED_AT] = true ->
       dict_get (Some CREATED_AT) (attributes (self w')) =
       dict_get (Some CREATED_AT) (attributes (self w)))) /\
  (forall column,
      str_in column [CREATED_AT; UPDATED_AT] = true ->
      _is_json_castable (self w) (Some column) = false ->
      storage_form (self w) (Some column) (now w) =
      Ok (VDatetime (clock (ticks w)))).
Proof.
  split; [|split; [|split]].
  4:{ intros column. apply storage_form_now. }
  - intro Ht. unfold update_timestamps_if_enabled, bind, get_self.
    rewrite Ht. reflexivity.
  - intros Ht Ho. unfold update_timestamps_if_enabled, bind, get_self.
    rewrite Ht, Ho. reflexivity.
  - intros w' Hrun.
    destruct (update_timestamps_inv _ _ Hrun) as (a1 & a2 & H1 & H2 & ->).
    change (attributes (self (mkWorld (with_attributes a2 (self w)) _ _))) with a2.
    split; [reflexivity|]. split; [reflexivity|].
    assert (Hcu : Some CREATED_AT <> Some UPDATED_AT) by discriminate.
    assert (Huc : Some UPDATED_AT <> Some CREATED_AT) by discriminate.
    split; [|split].
    + exists a1. split; [exact H1|]. exact H2.
    + intro Hu. rewrite Hu in H1. subst a1.
      destruct (orb _ _); [now subst|].
      destruct H2 as (s & _ & ->). now apply dict_get_set_other.
    + intro Hc. rewrite Hc, orb_true_r in H2. subst a2.
      destruct (is_dirty (self w) [UPDATED_AT]); [now subst|].
      destruct H1 as (s & _ & ->). now apply dict_get_set_other.
Qed.
End Save.

(** ** Delete *)

Section Delete.
Context {E : Externals}.

End Delete.

(** ** Serialization *)

Section Serialization.
Context {E : Externals}.
#[local] Arguments key_eqb : simpl never.

Lemma dict_get_filter_key {V} (f : pykey -> bool) (k : pykey) (d : pydict V) :
  f k = true -> dict_get k (filter (fun kv => f (fst kv)) d) = dict_get k d.
Proof.
  intro Hf. induction d as [|[a x] r IH]; simpl; [reflexivity|].
  destruct (key_eqb k a) eqn:Ha.
  - apply key_eqb_eq in Ha. subst a. rewrite Hf. simpl. now rewrite key_eqb_refl.
  - destruct (f a); simpl; [now rewrite Ha | exact IH].
Qed.

Lemma dictable_without_hidden_keeps (m : Model) (key : string)
      (values r : pydict value) :
  str_in key (hidden m) = false -> starts_with_underscore key = false ->
  dictable_without_hidden m values = Ok r ->
  dict_get (Some key) r = dict_get (Some key) values.
Proof.
  intros Hh Hu. revert r.
  induction values as [|[x v] rest IH]; intros r; simpl.
  - intro H. inversion H. reflexivity.
  - destruct (key_in x (hidden m)) eqn:Hx.
    + intro H. rewrite (IH _ H).
      destruct (key_eqb (Some key) x) eqn:Hk; [|reflexivity].
      apply key_eqb_eq in Hk. subst x. simpl in Hx. congruence.
    + destruct x as [name|]; [|discriminate].
      destruct (dictable_without_hidden m rest) as [r0|e]; [|discriminate].
      simpl. specialize (IH r0 eq_refl).
      destruct (starts_with_underscore name) eqn:Hn; intro H; inversion H; subst.
      * rewrite IH. destruct (key_eqb (Some key) (Some name)) eqn:Hk; [|reflexivity].
        apply key_eqb_eq in Hk. injection Hk as ->. congruence.
      * simpl. now rewrite IH.
Qed.

Lemma dictable_items_keep (m : Model) (key : string) (values r : pydict value) :
  dictable m key = true ->
  _get_dictable_items m values = Ok r ->
  dict_get (Some key) r = dict_get (Some key) values.
Proof.
  unfold dictable, _get_dictable_items.
  destruct (Nat.ltb 0 (List.length (visible m))).
  - intros Hv H. inversion H.
    apply (dict_get_filter_key (fun k => key_in k (visible m))). exact Hv.
  - intro Hd. apply andb_true_iff in Hd as [Hh Hu].
    apply negb_true_iff in Hh, Hu. now apply dictable_without_hidden_keeps.
Qed.

Lemma format_dates_keeps (keys : list string) (key : string)
      (attrs r : pydict value) :
  str_in key keys = false ->
  format_dates keys attrs = Ok r ->
  dict_get (Some key) r = dict_get (Some key) attrs.
Proof.
  revert attrs. induction keys as [|k keys IH]; intros attrs Hk; simpl.
  - intro H. inversion H. reflexivity.
  - unfold str_in in Hk. simpl in Hk. apply orb_false_iff in Hk as [Hne Hk].
    destruct (dict_get (Some k) attrs) as [v|]; [|now apply IH].
    destruct (as_datetime v) as [d|e]; [|discriminate]. simpl.
    destruct (_format_date d) as [t|e]; [|discriminate]. simpl.
    intro H. rewrite (IH _ Hk H). apply dict_get_set_other.
    intro Heq. injection Heq as ->. rewrite String.eqb_refl in Hne. discriminate.
Qed.

Lemma cast_all_keeps (m : Model) (items : pydict string) (k : pykey)
      (attrs r : pydict value) :
  ~ In k (map fst items) ->
  cast_all m items attrs = Ok r ->
  dict_get k r = dict_get k attrs.
Proof.
  revert attrs. induction items as [|[a t] items IH]; intros attrs Hk; simpl.
  - intro H. inversion H. reflexivity.
  - simpl in Hk.
    destruct (dict_get a attrs) as [v|]; [|apply IH; tauto].
    destruct (_cast_attribute m a v) as [c|e]; [|discriminate]. simpl.
    intro H. rewrite (IH _ (fun Hin => Hk (or_intror Hin)) H).
    apply dict_get_set_other. intro Heq. apply Hk. now left.
Qed.

Lemma cast_all_casts (m : Model) (items : pydict string) (k : pykey)
      (v c : value) (attrs r : pydict value) :
  NoDup (map fst items) ->
  In k (map fst items) ->
  dict_get k attrs = Some v ->
  _cast_attribute m k v = Ok c ->
  cast_all m items attrs = Ok r ->
  dict_get k r = Some c.
Proof.
  revert attrs. induction items as [|[a t] items IH];
    intros attrs Hn Hin Hget Hcast; simpl; [contradiction|].
  inversion Hn as [|? ? Hnot Hrest]; subst.
  destruct (key_eqb k a) eqn:Ha.
  - apply key_eqb_eq in Ha. subst a. rewrite Hget, Hcast. simpl.
    intro H. rewrite (cast_all_keeps _ _ _ _ _ Hnot H).
    apply dict_get_set_same.
  - apply key_eqb_neq in Ha.
    destruct Hin as [Heq | Hin]; [simpl in Heq; congruence|].
    destruct (dict_get a attrs) as [x|]; [|now apply IH].
    destruct (_cast_attribute m a x) as [y|e]; [|discriminate]. simpl.
    apply IH; auto. now rewrite dict_get_set_other.
Qed.

Lemma decoded_type_cases (type : string) :
  str_in type ["dict"; "list"; "json"] = true ->
  type = "dict" \/ type = "list" \/ type = "json".
Proof.
  intro H. apply str_in_In in H. simpl in H. intuition.
Qed.

(** The round trip of the structured casts that are decoded.  For a
    column cast to ['dict'], ['list'] or ['json'] that is no date column
    and that serialization keeps, and a value that simplejson writes and
    reads back, [set_attribute] stores the JSON text and the dictionary
    of [to_dict], when there is one, holds the value itself. *)
Theorem structured_cast_round_trip
        (w : World) (key t s : string) (v : value) (d : pydict value) :
  dict_get (Some key) (casts (self w)) = Some t ->
  str_in (strip (lower t)) ["dict"; "list"; "json"] = true ->
  NoDup (map fst (casts (self w))) ->
  str_in key (get_dates (self w)) = false ->
  dictable (self w) key = true ->
  json_dumps v = Some s ->
  json_loads (VStr s) = Some v ->
  set_attribute (Some key) v w = (Ok tt, stored (Some key) (VStr s) w) /\
  (to_dict (self (stored (Some key) (VStr s) w)) = Ok d ->
   dict_get (Some key) d = Some v).
Proof.
  intros Hcast Htype Hn Hdate Hvis Hdumps Hloads.
  assert (Hjson : _is_json_castable (self w) (Some key) = true).
  { unfold _is_json_castable, _has_cast, dict_has, _get_cast_type.
    rewrite Hcast.
    destruct (decoded_type_cases _ Htype) as [-> | [-> | ->]]; reflexivity. }
  split.
  - rewrite set_attribute_run. unfold storage_form.
    change (key_in (Some key) (get_dates (self w)))
      with (str_in key (get_dates (self w))).
    rewrite Hdate, Hjson. simpl. now rewrite Hdumps.
  - unfold to_dict, attributes_to_dict, _get_dictable_attributes.
    rewrite self_stored.
    set (m' := with_attributes _ (self w)).
    destruct (_get_dictable_items m' (attributes m')) as [d0|e] eqn:H0;
      [|discriminate]. simpl.
    destruct (format_dates (get_dates m') d0) as [d1|e] eqn:H1;
      [|discriminate]. simpl.
    intro H2.
    assert (Hd0 : dict_get (Some key) d0 = Some (VStr s)).
    { rewrite (dictable_items_keep m' key _ _ Hvis H0).
      apply dict_get_set_same. }
    assert (Hd1 : dict_get (Some key) d1 = Some (VStr s)).
    { rewrite (format_dates_keeps _ key _ _ Hdate H1). exact Hd0. }
    refine (cast_all_casts m' (casts m') (Some key) (VStr s) v d1 d
              Hn _ Hd1 _ H2).
    + apply in_map_iff. exists (Some key, t). split; [reflexivity|].
      now apply dict_get_In.
    + unfold _cast_attribute, _get_cast_type. simpl is_None. cbv iota.
      change (casts m') with (casts (self w)). rewrite Hcast. simpl rbind.
      destruct (decoded_type_cases _ Htype) as [-> | [-> | ->]];
        simpl; now rewrite Hloads.
Qed.

(** The cast ['object'] takes the other way on each side: it is
    serialized when written and passed through when read. *)
Lemma object_cast_passes_through (m : Model) (key : pykey) (t : string) (v : value) :
  dict_get key (casts m) = Some t ->
  strip (lower t) = "object" ->
  _is_json_castable m key = true /\ _cast_attribute m key v = Ok v.
Proof.
  intros Hcast Htype.
  unfold _is_json_castable, _cast_attribute, _has_cast, dict_has, _get_cast_type.
  rewrite Hcast, Htype. split; [reflexivity|].
  destruct v; reflexivity.
Qed.
End Serialization.

(** ** Insert and snapshot *)

Section Insert.
Context {E : Externals}.

(** The insert branch of [save].  For an instance that does not exist
    yet, of a type with an auto-incrementing key, [save] stamps, hands the
    attributes to [insert_get_id], stores the generated id under the key,
    sets [exists] and takes the snapshot. *)
Theorem save_inserts_and_sets_id
        (options : pydict value) (w w1 : World) (id sid : value) :
  exists_ (self w) = false ->
  incrementing (self w) = true ->
  update_timestamps_if_enabled options w = (Ok tt, w1) ->
  respond (queries w1)
          (InsertGetId (attributes (self w1)) (primary_key (self w1))) = Some id ->
  storage_form (self w1) (primary_key (self w1)) id = Ok sid ->
  save options w =
  (Ok (VBool true),
   synced (with_self
             (with_exists true
                (with_attributes
                   (dict_set (primary_key (self w1)) sid (attributes (self w1)))
                   (self w1)))
             (issued (InsertGetId (attributes (self w1)) (primary_key (self w1)))
                     w1))) /\
  queries (snd (save options w)) =
  queries w ++ [InsertGetId (attributes (self w1)) (primary_key (self w1))] /\
  exists_ (self (snd (save options w))) = true /\
  dict_get (primary_key (self w1)) (attributes (self (snd (save options w))))
  = Some sid /\
  original (self (snd (save options w))) = attributes (self (snd (save options w))).
Proof.
  intros Hex Hinc Hst Hid Hsid.
  assert (Hrun : save options w =
    (Ok (VBool true),
     synced (with_self
               (with_exists true
                  (with_attributes
                     (dict_set (primary_key (self w1)) sid (attributes (self w1)))
                     (self w1)))
               (issued (InsertGetId (attributes (self w1)) (primary_key (self w1)))
                       w1)))).
  { rewrite save_run, Hex. unfold _perform_insert. unfold bind at 1.
    rewrite Hst. unfold bind at 1. unfold get_self at 1.
    destruct (update_timestamps_if_enabled_frame _ _ _ _ Hst) as (a & t & Hw1 & _).
    assert (Hinc1 : incrementing (self w1) = true) by (now rewrite Hw1).
    rewrite Hinc1. unfold _insert_and_set_id.
    unfold bind at 2. unfold get_self at 1. unfold bind at 2.
    unfold bind at 1. cbv beta.
    rewrite run_run. unfold get_key_name. rewrite Hid. simpl external.
    cbv beta iota. rewrite set_attribute_run.
    change (self (issued ?q w1)) with (self w1). rewrite Hsid.
    reflexivity. }
  rewrite Hrun. split; [reflexivity|].
  destruct (update_timestamps_if_enabled_frame _ _ _ _ Hst) as (a & t & Hw1 & _).
  split; [rewrite Hw1; reflexivity|].
  split; [reflexivity|].
  split; [|reflexivity].
  apply dict_get_set_same.
Qed.

(** The dirty tracker.  [is_dirty] of one key holds exactly when
    [get_dirty] has the key, [is_dirty] of no key exactly when [get_dirty]
    is not empty; and right after [sync_original] nothing is dirty, for
    attributes with unique keys none of which differs from itself. *)
Theorem dirty_tracking (w : World) (key : string) :
  is_dirty (self w) [key] = dict_has (Some key) (get_dirty (self w)) /\
  (is_dirty (self w) [] = true <-> get_dirty (self w) <> []) /\
  (NoDup (map fst (attributes (self w))) ->
   (forall k v, In (k, v) (attributes (self w)) -> py_ne v v = false) ->
   fst (sync_original w) = Ok tt /\
   get_dirty (self (snd (sync_original w))) = []).
Proof.
  split; [apply is_dirty_one|]. split.
  - unfold is_dirty. rewrite dict_empty_length.
    destruct (get_dirty (self w)); simpl; split; congruence.
  - intros Hn Hself. split; [reflexivity|].
    unfold sync_original, modify_self. simpl snd.
    change (self (with_self ?m w)) with m.
    unfold get_dirty.
    change (original (with_original ?a _)) with a.
    change (attributes (with_original _ ?m)) with (attributes m).
    apply filter_none. intros [k v] Hin. simpl.
    rewrite (dict_get_In_NoDup k v _ Hn Hin). eauto.
Qed.
End Insert.

(** ** The properties on concrete instances *)

Section Instances.
Import Examples.
#[local] Existing Instance Reference.collaborators.



(** [second_save_issues_no_query] on the edited instance. *)
Lemma second_save_issues_no_query_witness :
  save [] edited = (Ok (VBool true), synced (issued edited_update edited_stamped)) /\
  save [] (synced (issued edited_update edited_stamped)) =
  (Ok (VBool true), synced (issued edited_update edited_stamped)) /\
  queries (snd (save [] (synced (issued edited_update edited_stamped)))) =
  [edited_update].
Proof.
  split; [reflexivity|].
  refine (second_save_issues_no_query [] [] edited
            (synced (issued edited_update edited_stamped)) (VBool true)
            eq_refl _ eq_refl _).
  - repeat constructor; simpl; intuition discriminate.
  - intros k v Hin. simpl in Hin.
    repeat (destruct Hin as [Hin | Hin];
            [injection Hin as _ <-; reflexivity|]).
    contradiction.
Defined.

(** [save_returns_true] on an instance that is inserted. *)
Lemma save_returns_true_witness :
  fst (save [] brand_new) = Ok (VBool true) /\ VBool true = VBool true.
Proof.
  split; [reflexivity|].
  exact (save_returns_true [] brand_new (snd (save [] brand_new)) (VBool true)
           eq_refl).
Defined.

(** [fill_error_leaves_model_unchanged] on a totally guarded instance. *)
Lemma fill_error_leaves_model_unchanged_witness :
  fst (fill [("users.name", VStr "z"); ("id", VInt 9)] loaded) =
  Raise (MassAssignmentError "name") /\
  snd (fill [("users.name", VStr "z"); ("id", VInt 9)] loaded) = loaded.
Proof.
  split; [reflexivity|].
  exact (proj1 (proj2 (proj2
           (fill_error_leaves_model_unchanged
              [("users.name", VStr "z"); ("id", VInt 9)] loaded eq_refl)))).
Defined.

(** [update_keyed_on_original_key] on the edited instance: the key in
    memory is 7, the update goes to the row 1. *)
Lemma update_keyed_on_original_key_witness :
  In (Some "id", VInt 7) (get_dirty (self edited_stamped)) /\
  queries (snd (save [] edited)) = [edited_update].
Proof.
  exact (proj1 (proj2 (proj2 (update_keyed_on_original_key [] edited)))
           (VInt 1) (VInt 7) edited_stamped eq_refl eq_refl eq_refl eq_refl eq_refl).
Defined.


(** [timestamps_stamp_clean_columns] on a new instance: both columns
    receive the one reading of the clock. *)
Lemma timestamps_stamp_clean_columns_witness :
  _update_timestamps brand_new =
  (Ok tt,
   mkWorld (with_attributes
              [(Some "name", VStr "c");
               (Some "updated_at", VDatetime 1700000000000000);
               (Some "created_at", VDatetime 1700000000000000)]
              (self brand_new))
           [] 1) /\
  ticks (snd (_update_timestamps brand_new)) = 1 /\
  queries (snd (_update_timestamps brand_new)) = [].
Proof.
  split; [reflexivity|].
  destruct (proj1 (proj2 (proj2 (timestamps_stamp_clean_columns [] brand_new)))
              (snd (_update_timestamps brand_new)) eq_refl)
    as (Ht & Hq & _).
  split; [exact Ht | exact Hq].
Defined.

(** C3, as the specification words it, fails on an attribute that
    differs from itself: a NaN stays dirty after the snapshot is taken,
    so the second [save] stamps and writes again. *)
Lemma nan_attribute_is_written_twice :
  exists_ (self measurement) = true /\
  fst (save [] measurement) = Ok (VBool true) /\
  queries (snd (save [] measurement)) =
  [Update [(Some "id", VInt 1)]
          [(Some "x", VFloat S754_nan);
           (Some "updated_at", VDatetime 1700000000000000)]] /\
  fst (save [] (snd (save [] measurement))) = Ok (VBool true) /\
  queries (snd (save [] (snd (save [] measurement)))) =
  [Update [(Some "id", VInt 1)]
          [(Some "x", VFloat S754_nan);
           (Some "updated_at", VDatetime 1700000000000000)];
   Update [(Some "id", VInt 1)]
          [(Some "x", VFloat S754_nan);
           (Some "updated_at", VDatetime 1700000001000000)]].
Proof. repeat split. Qed.

(** C8 on the cast ['object']: [set_attribute] stores the JSON text of
    the list, and [to_dict] gives that text back, not the list; under
    the cast ['json'] the same list comes back decoded. *)
Theorem object_cast_is_not_decoded :
  _is_json_castable (self (document "object")) (Some "data") = true /\
  set_attribute (Some "data") (VList [VInt 1; VInt 2]) (document "object") =
  (Ok tt, stored (Some "data") (VStr "[1, 2]") (document "object")) /\
  to_dict (self (stored (Some "data") (VStr "[1, 2]") (document "object"))) =
  Ok [(Some "data", VStr "[1, 2]")] /\
  set_attribute (Some "data") (VList [VInt 1; VInt 2]) (document "json") =
  (Ok tt, stored (Some "data") (VStr "[1, 2]") (document "json")) /\
  to_dict (self (stored (Some "data") (VStr "[1, 2]") (document "json"))) =
  Ok [(Some "data", VList [VInt 1; VInt 2])].
Proof. repeat split. Qed.

(** [structured_cast_round_trip] on the cast ['json']. *)
Lemma structured_cast_round_trip_witness :
  set_attribute (Some "data") (VList [VInt 1; VInt 2]) (document "json") =
  (Ok tt, stored (Some "data") (VStr "[1, 2]") (document "json")) /\
  (to_dict (self (stored (Some "data") (VStr "[1, 2]") (document "json"))) =
   Ok [(Some "data", VList [VInt 1; VInt 2])] ->
   dict_get (Some "data") [(Some "data", VList [VInt 1; VInt 2])] =
   Some (VList [VInt 1; VInt 2])).
Proof.
  refine (structured_cast_round_trip (document "json") "data" "json" "[1, 2]"
            (VList [VInt 1; VInt 2]) [(Some "data", VList [VInt 1; VInt 2])]
            eq_refl eq_refl _ eq_refl eq_refl eq_refl eq_refl).
  repeat constructor. simpl. tauto.
Defined.

(** [save_inserts_and_sets_id] on the instance that was never saved: the
    first insert generates the id 1. *)
Lemma save_inserts_and_sets_id_witness :
  queries (snd (save [] brand_new)) =
  [InsertGetId [(Some "name", VStr "c");
                (Some "updated_at", VDatetime 1700000000000000);
                (Some "created_at", VDatetime 1700000000000000)]
               (Some "id")] /\
  exists_ (self (snd (save [] brand_new))) = true /\
  dict_get (Some "id") (attributes (self (snd (save [] brand_new)))) =
  Some (VInt 1).
Proof.
  destruct (save_inserts_and_sets_id (E := Reference.collaborators)
              [] brand_new brand_new_stamped
              (VInt 1) (VInt 1) eq_refl eq_refl eq_refl eq_refl eq_refl)
    as (_ & Hq & Hex & Hid & _).
  split; [exact Hq|]. split; [exact Hex | exact Hid].
Defined.
End Instances.

(** ** What mass assignment writes *)

Section FillWrites.
Context {E : Externals}.

Lemma dict_has_set_same {V} (k : pykey) (v : V) (d : pydict V) :
  dict_has k (dict_set k v d) = true.
Proof. unfold dict_has. now rewrite dict_get_set_same. Qed.

Lemma dict_has_set_mono {V} (k k' : pykey) (v : V) (d : pydict V) :
  dict_has k d = true -> dict_has k (dict_set k' v d) = true.
Proof.
  intro H. destruct (key_eqb k k') eqn:Hk.
  - apply key_eqb_eq in Hk. subst. apply dict_has_set_same.
  - apply key_eqb_neq in Hk. unfold dict_has in *.
    now rewrite dict_get_set_other.
Qed.

Lemma world_eta (w : World) :
  w = with_self (with_attributes (attributes (self w)) (self w)) w.
Proof. destruct w as [[] ? ?]. reflexivity. Qed.

(** The loop of [fill] changes nothing but attributes, removes none, and
    leaves alone every key that is not the key of an entry it accepts. *)
Lemma fill_items_frame (tg : bool) (items : list (string * value)) :
  forall (w w' : World) (r : result unit),
    fill_items tg items w = (r, w') ->
    exists a,
      w' = with_self (with_attributes a (self w)) w /\
      (forall key, dict_has key (attributes (self w)) = true ->
                   dict_has key a = true) /\
      (forall key,
          (forall kv, In kv items ->
                      key = Some (_remove_table_from_key (fst kv)) ->
                      is_fillable (self w) (_remove_table_from_key (fst kv)) = false) ->
          dict_get key a = dict_get key (attributes (self w))).
Proof.
  induction items as [|[k v] rest IH]; intros w w' r.
  - simpl. unfold ret. intro H. inversion H; subst.
    exists (attributes (self w')). split; [apply world_eta|]. split; auto.
  - rewrite fill_items_cons. cbv zeta.
    destruct (is_fillable (self w) (_remove_table_from_key k)) eqn:Hf.
    + destruct (storage_form (self w) (Some (_remove_table_from_key k)) v)
        as [s|e] eqn:Hs.
      * intro H. apply IH in H as (a & -> & Hmono & Hkeep).
        exists a. split; [reflexivity|]. split.
        -- intros key Hk. apply Hmono. rewrite self_stored.
           now apply dict_has_set_mono.
        -- intros key Hrej.
           rewrite Hkeep.
           ++ rewrite self_stored.
              change (attributes (with_attributes ?x _)) with x.
              apply dict_get_set_other. intro Heq.
              specialize (Hrej (k, v) (or_introl eq_refl) Heq).
              simpl in Hrej. congruence.
           ++ intros kv Hin Hkey. apply (Hrej kv (or_intror Hin) Hkey).
      * intro H. inversion H; subst.
        exists (attributes (self w')). split; [apply world_eta|]. split; auto.
    + assert (Hrest : fill_items tg rest w = (r, w') ->
                      exists a,
                        w' = with_self (with_attributes a (self w)) w /\
                        (forall key, dict_has key (attributes (self w)) = true ->
                                     dict_has key a = true) /\
                        (forall key,
                            (forall kv, In kv ((k, v) :: rest) ->
                                        key = Some (_remove_table_from_key (fst kv)) ->
                                        is_fillable (self w)
                                          (_remove_table_from_key (fst kv)) = false) ->
                            dict_get key a = dict_get key (attributes (self w)))).
      { intro H. apply IH in H as (a & -> & Hmono & Hkeep).
        exists a. split; [reflexivity|]. split; [exact Hmono|].
        intros key Hrej. apply Hkeep.
        intros kv Hin. apply Hrej. now right. }
      destruct tg; [|exact Hrest].
      intro H. inversion H; subst.
      exists (attributes (self w')). split; [apply world_eta|]. split; auto.
Qed.

(** Protected or not, [fill] touches nothing but the attributes, removes
    none of them, and never writes under a key that [is_fillable]
    rejects. *)
Theorem fill_respects_guard (input : list (string * value)) (w : World) :
  queries (snd (fill input w)) = queries w /\
  ticks (snd (fill input w)) = ticks w /\
  original (self (snd (fill input w))) = original (self w) /\
  exists_ (self (snd (fill input w))) = exists_ (self w) /\
  unguarded (self (snd (fill input w))) = unguarded (self w) /\
  declarations (self (snd (fill input w))) = declarations (self w) /\
  (forall key, dict_has key (attributes (self w)) = true ->
               dict_has key (attributes (self (snd (fill input w)))) = true) /\
  (forall k, is_fillable (self w) k = false ->
             dict_get (Some k) (attributes (self (snd (fill input w)))) =
             dict_get (Some k) (attributes (self w))) /\
  dict_get None (attributes (self (snd (fill input w)))) =
  dict_get None (attributes (self w)).
Proof.
  rewrite fill_run.
  destruct (fill_items _ _ w) as [r w'] eqn:H.
  apply fill_items_frame in H as (a & -> & Hmono & Hkeep).
  simpl snd. repeat split; try exact Hmono.
  - intros k Hrej. apply Hkeep. intros kv _ Heq.
    injection Heq as <-. exact Hrej.
  - apply Hkeep. intros kv _ Heq. discriminate.
Qed.

Lemma NoDup_map_filter {A B} (keep : A -> bool) (key : A -> B)
      (items : list A) :
  NoDup (map key items) -> NoDup (map key (filter keep items)).
Proof.
  induction items as [|x l IH]; simpl; intro H; [constructor|].
  inversion H as [|? ? Hnot Hl]; subst.
  destruct (keep x); simpl; [|auto].
  constructor; [|auto].
  intro Hin. apply Hnot. apply in_map_iff in Hin as (y & Hy & Hin).
  apply filter_In in Hin as [Hin _]. apply in_map_iff. eauto.
Qed.

(** When the loop returns, every entry it accepted is stored in its
    storage form, as long as no later entry has the same key. *)
Lemma fill_items_stores (tg : bool) (items : list (string * value)) :
  forall (w w' : World),
    fill_items tg items w = (Ok tt, w') ->
    NoDup (map (fun kv => _remove_table_from_key (fst kv)) items) ->
    forall k v,
      In (k, v) items ->
      is_fillable (self w) (_remove_table_from_key k) = true ->
      exists s,
        storage_form (self w) (Some (_remove_table_from_key k)) v = Ok s /\
        dict_get (Some (_remove_table_from_key k)) (attributes (self w')) = Some s.
Proof.
  induction items as [|[k0 v0] rest IH]; intros w w' Hrun Hn k v Hin Hf;
    [contradiction|].
  inversion Hn as [|? ? Hnot Hrest]; subst.
  rewrite fill_items_cons in Hrun. cbv zeta in Hrun.
  destruct Hin as [Heq | Hin].
  - injection Heq as -> ->. rewrite Hf in Hrun.
    destruct (storage_form (self w) (Some (_remove_table_from_key k)) v)
      as [s|e] eqn:Hs; [|discriminate].
    exists s. split; [reflexivity|].
    apply fill_items_frame in Hrun as (a & -> & _ & Hkeep).
    change (attributes (self (with_self (with_attributes a ?m) _))) with a.
    rewrite Hkeep.
    + rewrite self_stored. apply dict_get_set_same.
    + intros kv Hkv Heq. exfalso. apply Hnot.
      injection Heq as Heq. simpl. rewrite Heq.
      apply in_map_iff. exists kv. split; [reflexivity | exact Hkv].
  - destruct (is_fillable (self w) (_remove_table_from_key k0)) eqn:Hf0.
    + destruct (storage_form (self w) (Some (_remove_table_from_key k0)) v0)
        as [s0|e] eqn:Hs0; [|discriminate].
      apply (IH _ _ Hrun Hrest k v Hin Hf).
    + destruct tg; [discriminate|].
      apply (IH _ _ Hrun Hrest k v Hin Hf).
Qed.

(** When [fill] returns, each entry it met and accepted is stored in its
    storage form under its key without the table name, as long as no two
    entries come to the same key. *)
Theorem fill_stores_accepted
        (input : list (string * value)) (w w' : World) (k : string) (v : value) :
  fill input w = (Ok tt, w') ->
  NoDup (map (fun kv => _remove_table_from_key (fst kv)) input) ->
  In (k, v) (_fillable_from_dict (self w) input) ->
  is_fillable (self w) (_remove_table_from_key k) = true ->
  exists s,
    storage_form (self w) (Some (_remove_table_from_key k)) v = Ok s /\
    dict_get (Some (_remove_table_from_key k)) (attributes (self w')) = Some s.
Proof.
  rewrite fill_run. intros Hrun Hn Hin Hf.
  apply (fill_items_stores _ _ _ _ Hrun); auto.
  unfold _fillable_from_dict. destruct (andb _ _); [|exact Hn].
  now apply NoDup_map_filter.
Qed.
End FillWrites.

(** ** The unguarded flag around a forced fill *)

Section ForceFill.
Context {E : Externals}.

Lemma fill_items_unguarded_has (tg : bool) (items : list (string * value)) :
  forall (w w' : World),
    unguarded (self w) = true ->
    fill_items tg items w = (Ok tt, w') ->
    forall kv, In kv items ->
               dict_has (Some (_remove_table_from_key (fst kv)))
                        (attributes (self w')) = true.
Proof.
  induction items as [|[k v] rest IH]; intros w w' Hu Hrun kv Hin;
    [contradiction|].
  rewrite fill_items_cons in Hrun. cbv zeta in Hrun.
  unfold is_fillable in Hrun at 1. rewrite Hu in Hrun.
  destruct (storage_form (self w) (Some (_remove_table_from_key k)) v)
    as [s|e] eqn:Hs; [|discriminate].
  destruct Hin as [<- | Hin].
  - apply fill_items_frame in Hrun as (a & -> & Hmono & _).
    apply Hmono. rewrite self_stored. apply dict_has_set_same.
  - apply (IH (stored (Some (_remove_table_from_key k)) s w) w' Hu Hrun kv Hin).
Qed.

(** [force_fill] raises the flag, fills and lowers the flag.  When it
    returns, the flag is down, whatever it was before, and every entry of
    the input has its key among the attributes.  When the fill raises
    (arrow or simplejson refusing a value), the flag is never lowered:
    the class stays unguarded.  Neither way is anything but the flag and
    the attributes touched. *)
Theorem force_fill_flag (input : list (string * value)) (w : World) :
  (fst (force_fill input w) = Ok tt ->
   unguarded (self (snd (force_fill input w))) = false /\
   forall kv, In kv input ->
              dict_has (Some (_remove_table_from_key (fst kv)))
                       (attributes (self (snd (force_fill input w)))) = true) /\
  (forall e, fst (force_fill input w) = Raise e ->
             unguarded (self (snd (force_fill input w))) = true) /\
  original (self (snd (force_fill input w))) = original (self w) /\
  exists_ (self (snd (force_fill input w))) = exists_ (self w) /\
  queries (snd (force_fill input w)) = queries w /\
  declarations (self (snd (force_fill input w))) = declarations (self w).
Proof.
  unfold force_fill, unguard, reguard, bind, modify_self.
  set (wu := with_self (with_unguarded true (self w)) w).
  rewrite fill_run.
  assert (Hpass : _fillable_from_dict (self wu) input = input).
  { unfold _fillable_from_dict. simpl. now rewrite andb_false_r. }
  rewrite Hpass.
  destruct (fill_items (totally_guarded (self wu)) input wu) as [[[]|e] w1] eqn:Hrun.
  - pose proof (fill_items_unguarded_has _ input wu w1 eq_refl Hrun) as Hhas.
    apply fill_items_frame in Hrun as (a & -> & _ & _).
    simpl. repeat split; [exact Hhas | discriminate].
  - apply fill_items_frame in Hrun as (a & -> & _ & _).
    simpl. repeat split; discriminate.
Qed.
End ForceFill.

(** ** Save, path by path *)

Section SavePaths.
Context {E : Externals}.

Lemma perform_insert_run (query : Builder) (options : pydict value) (w : World) :
  _perform_insert query options w =
  match update_timestamps_if_enabled options w with
  | (Raise e, w1) => (Raise e, w1)
  | (Ok _, w1) =>
      let q := insert_query (self w1) (attributes (self w1)) in
      match respond (queries w1) q with
      | None => (Raise External, issued q w1)
      | Some id =>
          if incrementing (self w1) then
            match storage_form (self w1) (primary_key (self w1)) id with
            | Ok sid =>
                (Ok (VBool true),
                 with_self
                   (with_exists true
                      (with_attributes
                         (dict_set (primary_key (self w1)) sid
                                   (attributes (self w1)))
                         (self w1)))
                   (issued q w1))
            | Raise e => (Raise e, issued q w1)
            end
          else (Ok (VBool true),
                with_self (with_exists true (self w1)) (issued q w1))
      end
  end.
Proof.
  unfold _perform_insert. unfold bind at 1.
  destruct (update_timestamps_if_enabled options w) as [[u|e] w1]; [|reflexivity].
  unfold bind at 1. unfold get_self at 1. unfold insert_query. cbv zeta.
  destruct (incrementing (self w1)).
  - unfold _insert_and_set_id.
    unfold bind at 2. unfold get_self at 1. unfold bind at 2.
    unfold bind at 1. cbv beta.
    rewrite run_run. unfold get_key_name.
    destruct (respond (queries w1) _) as [id|]; simpl external; cbv beta iota;
      [|reflexivity].
    rewrite set_attribute_run.
    change (self (issued ?q w1)) with (self w1).
    destruct (storage_form (self w1) (primary_key (self w1)) id); reflexivity.
  - unfold bind at 2. unfold bind at 1. cbv beta. rewrite run_run.
    destruct (respond (queries w1) _); reflexivity.
Qed.

(** A [save] that raises has neither set [exists] nor taken the snapshot:
    both are as before the call, whichever step raised (the stamping, the
    lookup of the key, the connection, or the storing of the generated
    id). *)
Theorem failed_save_keeps_state (options : pydict value) (w : World) (e : exn) :
  fst (save options w) = Raise e ->
  exists_ (self (snd (save options w))) = exists_ (self w) /\
  original (self (snd (save options w))) = original (self w) /\
  unguarded (self (snd (save options w))) = unguarded (self w) /\
  declarations (self (snd (save options w))) = declarations (self w).
Proof.
  rewrite save_run.
  destruct (exists_ (self w)) eqn:Hex.
  - rewrite perform_update_run.
    destruct (dict_empty (get_dirty (self w))); [discriminate|].
    destruct (update_timestamps_if_enabled options w) as [[u|e1] w1] eqn:Hst;
      destruct (update_timestamps_if_enabled_frame _ _ _ _ Hst) as (a & t & -> & _).
    + change (self (mkWorld ?m _ _)) with m.
      destruct (dict_empty _); [discriminate|].
      destruct (_get_key_for_save_query _) as [key|e2];
        [|intros _; simpl; rewrite Hex; repeat split].
      cbv zeta. destruct (respond _ _); [discriminate|].
      intros _. simpl. rewrite Hex. repeat split.
    + intros _. simpl. rewrite Hex. repeat split.
  - rewrite perform_insert_run.
    destruct (update_timestamps_if_enabled options w) as [[u|e1] w1] eqn:Hst;
      destruct (update_timestamps_if_enabled_frame _ _ _ _ Hst) as (a & t & -> & _).
    + cbv zeta. destruct (respond _ _) as [id|];
        [|intros _; simpl; rewrite Hex; repeat split].
      change (self (mkWorld ?m _ _)) with m.
      change (incrementing (with_attributes a (self w))) with (incrementing (self w)).
      destruct (incrementing (self w)); [|discriminate].
      destruct (storage_form _ _ id); [discriminate|].
      intros _. simpl. rewrite Hex. repeat split.
    + intros _. simpl. rewrite Hex. repeat split.
Qed.

Lemma save_ok_inv (options : pydict value) (w w' : World) (r : value) :
  save options w = (Ok r, w') ->
  exists_ (self w') = true /\
  original (self w') = attributes (self w') /\
  unguarded (self w') = unguarded (self w) /\
  declarations (self w') = declarations (self w) /\
  (NoDup (map fst (attributes (self w))) ->
   NoDup (map fst (attributes (self w')))).
Proof.
  rewrite save_run.
  destruct (exists_ (self w)) eqn:Hex.
  - rewrite perform_update_run.
    destruct (dict_empty (get_dirty (self w))).
    + intro H. inversion H; subst. simpl. rewrite Hex. repeat split. auto.
    + destruct (update_timestamps_if_enabled options w) as [[u|e1] w1] eqn:Hst;
        [|discriminate].
      destruct (update_timestamps_if_enabled_frame _ _ _ _ Hst)
        as (a & t & -> & [_ Hn]).
      change (self (mkWorld ?m _ _)) with m.
      destruct (dict_empty _).
      * intro H. inversion H; subst. simpl. rewrite Hex. repeat split. exact Hn.
      * destruct (_get_key_for_save_query _) as [key|e2]; [|discriminate].
        cbv zeta. destruct (respond _ _); [|discriminate].
        intro H. inversion H; subst. simpl. rewrite Hex. repeat split. exact Hn.
  - rewrite perform_insert_run.
    destruct (update_timestamps_if_enabled options w) as [[u|e1] w1] eqn:Hst;
      [|discriminate].
    destruct (update_timestamps_if_enabled_frame _ _ _ _ Hst)
      as (a & t & -> & [_ Hn]).
    cbv zeta. destruct (respond _ _) as [id|]; [|discriminate].
    change (self (mkWorld ?m _ _)) with m.
    change (incrementing (with_attributes a (self w))) with (incrementing (self w)).
    destruct (incrementing (self w)).
    + destruct (storage_form _ _ id) as [sid|e2]; [|discriminate].
      intro H. inversion H; subst. simpl. repeat split.
      intro Hw. apply dict_set_keys_NoDup. auto.
    + intro H. inversion H; subst. simpl. repeat split. exact Hn.
Qed.

(** A [save] that returns leaves an instance that exists and whose
    snapshot is its attributes, whether it inserted, updated or found
    nothing to write; the keys of the attributes stay unique, and
    nothing is dirty any more as long as no stored value differs from
    itself. *)
Theorem successful_save_is_synced
        (options : pydict value) (w w' : World) (r : value) :
  save options w = (Ok r, w') ->
  exists_ (self w') = true /\
  original (self w') = attributes (self w') /\
  unguarded (self w') = unguarded (self w) /\
  declarations (self w') = declarations (self w) /\
  (NoDup (map fst (attributes (self w))) ->
   NoDup (map fst (attributes (self w'))) /\
   ((forall k v, In (k, v) (attributes (self w')) -> py_ne v v = false) ->
    get_dirty (self w') = [])).
Proof.
  intro Hsave.
  destruct (save_ok_inv _ _ _ _ Hsave) as (Hex & Ho & Hu & Hd & Hn).
  repeat split; try assumption.
  - now apply Hn.
  - intro Hself. unfold get_dirty. rewrite Ho.
    apply filter_none. intros [k v] Hin. simpl.
    rewrite (dict_get_In_NoDup k v _ (Hn H) Hin). eauto.
Qed.

(** [save] never touches the unguarded flag, whatever its outcome. *)
Lemma save_flag_frame (options : pydict value) (w : World) :
  unguarded (self (snd (save options w))) = unguarded (self w).
Proof.
  rewrite save_run.
  destruct (exists_ (self w)).
  - rewrite perform_update_run.
    destruct (dict_empty (get_dirty (self w))); [reflexivity|].
    destruct (update_timestamps_if_enabled options w) as [[u|e1] w1] eqn:Hst;
      destruct (update_timestamps_if_enabled_frame _ _ _ _ Hst) as (a & t & -> & _);
      [|reflexivity].
    change (self (mkWorld ?m _ _)) with m.
    destruct (dict_empty _); [reflexivity|].
    destruct (_get_key_for_save_query _) as [key|e2]; [|reflexivity].
    cbv zeta. destruct (respond _ _); reflexivity.
  - rewrite perform_insert_run.
    destruct (update_timestamps_if_enabled options w) as [[u|e1] w1] eqn:Hst;
      destruct (update_timestamps_if_enabled_frame _ _ _ _ Hst) as (a & t & -> & _);
      [|reflexivity].
    cbv zeta. destruct (respond _ _) as [id|]; [|reflexivity].
    change (self (mkWorld ?m _ _)) with m.
    change (incrementing (with_attributes a (self w))) with (incrementing (self w)).
    destruct (incrementing (self w)); [|reflexivity].
    destruct (storage_form _ _ id); reflexivity.
Qed.

(** [save] of an instance that exists and whose snapshot is its
    attributes changes nothing at all. *)
Lemma save_of_synced (options : pydict value) (w : World) :
  exists_ (self w) = true ->
  original (self w) = attributes (self w) ->
  NoDup (map fst (attributes (self w))) ->
  (forall k v, In (k, v) (attributes (self w)) -> py_ne v v = false) ->
  save options w = (Ok (VBool true), w).
Proof.
  intros Hex Ho Hn Hself.
  rewrite save_run, Hex, perform_update_run.
  assert (Hclean : get_dirty (self w) = []).
  { unfold get_dirty. rewrite Ho. apply filter_none. intros [k v] Hin. simpl.
    rewrite (dict_get_In_NoDup k v _ Hn Hin). eauto. }
  rewrite Hclean. simpl. unfold synced. rewrite <- Ho.
  destruct w as [[] ? ?]. reflexivity.
Qed.

(** After a [save] that inserted, an immediate second [save] issues
    nothing and changes nothing, as long as no stored value differs from
    itself. *)
Theorem save_after_insert_is_quiet
        (options1 options2 : pydict value) (w w1 : World) (r : value) :
  exists_ (self w) = false ->
  NoDup (map fst (attributes (self w))) ->
  save options1 w = (Ok r, w1) ->
  (forall k v, In (k, v) (attributes (self w1)) -> py_ne v v = false) ->
  save options2 w1 = (Ok (VBool true), w1).
Proof.
  intros _ Hn Hsave Hself.
  destruct (save_ok_inv _ _ _ _ Hsave) as (Hex & Ho & _ & _ & Hn1).
  apply save_of_synced; auto.
Qed.


(** What [save] writes for an instance that does not exist: once the
    stamping has returned, exactly one insert of all the attributes, by
    [insert_get_id] for an auto-incrementing key and by [insert]
    otherwise; with a key that is not auto-incrementing the attributes
    are then left as stamped. *)
Theorem save_of_new_instance (options : pydict value) (w w1 : World) :
  exists_ (self w) = false ->
  update_timestamps_if_enabled options w = (Ok tt, w1) ->
  queries (snd (save options w)) =
  queries w ++ [insert_query (self w) (attributes (self w1))] /\
  (incrementing (self w) = false ->
   forall n,
     respond (queries w) (Insert (attributes (self w1))) = Some n ->
     save options w =
     (Ok (VBool true),
      synced (with_self (with_exists true (self w1))
                        (issued (Insert (attributes (self w1))) w1)))).
Proof.
  intros Hex Hst.
  rewrite save_run, Hex, perform_insert_run, Hst.
  destruct (update_timestamps_if_enabled_frame _ _ _ _ Hst) as (a & t & -> & _).
  cbv zeta. change (self (mkWorld ?m _ _)) with m.
  change (queries (mkWorld _ ?q _)) with q.
  unfold insert_query.
  change (incrementing (with_attributes a (self w))) with (incrementing (self w)).
  change (primary_key (with_attributes a (self w))) with (primary_key (self w)).
  change (attributes (with_attributes a (self w))) with a.
  split.
  - destruct (respond _ _) as [id|]; [|reflexivity].
    destruct (incrementing (self w)); [|reflexivity].
    destruct (storage_form _ _ id); reflexivity.
  - intros Hinc n Hn. rewrite Hinc, Hn. reflexivity.
Qed.

End SavePaths.

(** ** Delete, touch and update *)

Section Compositions.
Context {E : Externals}.



(** [update] on an instance that does not exist consults no guard and
    leaves the instance alone: it hands the attributes to an update
    without any key.  On an instance that exists it fills and saves, so
    that a totally guarded type raises [MassAssignmentError] for the
    first attribute before anything is written or issued. *)
Theorem update_by_state (attributes : list (string * value)) (w : World) :
  (exists_ (self w) = false ->
   update attributes w =
   (external (respond (queries w) (Update [] (as_dict attributes))),
    issued (Update [] (as_dict attributes)) w)) /\
  (exists_ (self w) = true ->
   forall w1, fill attributes w = (Ok tt, w1) ->
              update attributes w = save [] w1) /\
  (exists_ (self w) = true ->
   totally_guarded (self w) = true -> unguarded (self w) = false ->
   forall k v rest,
     attributes = (k, v) :: rest ->
     update attributes w =
     (Raise (MassAssignmentError (_remove_table_from_key k)), w)).
Proof.
  unfold update, bind, get_self. split; [|split].
  - intros ->. simpl negb. cbv iota. unfold new_query, ret. apply run_run.
  - intros -> w1 Hfill. unfold negb. cbv beta iota. rewrite Hfill. reflexivity.
  - intros -> Htg Hu k v rest ->. unfold negb. cbv beta iota.
    rewrite fill_run, totally_guarded_passes_all by exact Htg.
    rewrite fill_items_cons. cbv zeta.
    rewrite totally_guarded_rejects by assumption.
    rewrite Htg. reflexivity.
Qed.
End Compositions.

(** ** Construction, hydration and copies *)

Section Construction.
Context {E : Externals}.

Lemma filter_all {A} (p : A -> bool) (l : list A) :
  (forall x, In x l -> p x = true) -> filter p l = l.
Proof.
  induction l as [|x l IH]; intro H; [reflexivity|].
  simpl. rewrite (H x (or_introl eq_refl)). f_equal. apply IH.
  intros y Hy. apply H. now right.
Qed.

(** With an empty snapshot every attribute is dirty. *)
Lemma all_dirty_without_snapshot (m : Model) :
  original m = [] -> get_dirty m = attributes m.
Proof.
  intro Ho. unfold get_dirty. rewrite Ho. apply filter_all. reflexivity.
Qed.

Lemma init_run (attributes : list (string * value)) (w : World) :
  __init__ attributes w = fill attributes (with_self (blank (self w)) w).
Proof. reflexivity. Qed.

(** The keys [fill] leaves are those it found and those of its input. *)
Lemma fill_items_keys (tg : bool) (items : list (string * value))
      (w w' : World) (r : result unit) (key : pykey) :
  fill_items tg items w = (r, w') ->
  dict_has key (attributes (self w')) = true ->
  dict_has key (attributes (self w)) = true \/
  exists kv, In kv items /\ key = Some (_remove_table_from_key (fst kv)).
Proof.
  intros Hrun Hhas.
  destruct (existsb (fun kv => key_eqb key (Some (_remove_table_from_key (fst kv))))
                    items) eqn:Hex.
  - right. apply existsb_exists in Hex as (kv & Hin & Hk).
    apply key_eqb_eq in Hk. eauto.
  - left. apply fill_items_frame in Hrun as (a & -> & _ & Hkeep).
    unfold dict_has in *.
    change (attributes (self (with_self (with_attributes a ?m) _))) with a in Hhas.
    rewrite Hkeep in Hhas; [exact Hhas|].
    intros kv Hin Hk. exfalso.
    assert (Hc : existsb (fun kv => key_eqb key (Some (_remove_table_from_key (fst kv))))
                         items = true).
    { apply existsb_exists. exists kv. split; [exact Hin|]. now apply key_eqb_eq. }
    congruence.
Qed.

Lemma In_fillable_from_dict (m : Model) (input : list (string * value))
      (kv : string * value) :
  In kv (_fillable_from_dict m input) -> In kv input.
Proof.
  unfold _fillable_from_dict. destruct (andb _ _); [|auto].
  intro H. now apply filter_In in H.
Qed.

(** What the constructor leaves, whatever its outcome. *)
Lemma init_frame (attributes0 : list (string * value)) (w : World) :
  exists a,
    snd (__init__ attributes0 w) =
    with_self (with_attributes a (blank (self w))) w /\
    forall key, dict_has key a = true ->
                exists kv, In kv attributes0 /\
                           key = Some (_remove_table_from_key (fst kv)).
Proof.
  rewrite init_run, fill_run.
  destruct (fill_items _ _ _) as [r w'] eqn:Hrun.
  pose proof (fill_items_frame _ _ _ _ _ Hrun) as (a & Hw & _ & _).
  exists a. split; [exact Hw|].
  intros key Hhas.
  destruct (fill_items_keys _ _ _ _ _ key Hrun) as [Hold | (kv & Hin & Hk)].
  - rewrite Hw. exact Hhas.
  - discriminate.
  - exists kv. split; [|exact Hk]. eapply In_fillable_from_dict; eauto.
Qed.

(** The constructor takes its snapshot before it fills.  Whatever its
    outcome, it issues nothing, the object does not exist, its snapshot
    is empty, so that every attribute it holds is dirty, and it holds no
    key but those of its keywords (without their table names).  Under
    total guarding with the flag down it raises [MassAssignmentError]
    for the first keyword it is given. *)
Theorem constructor_snapshot_is_empty
        (attributes0 : list (string * value)) (w : World) :
  exists_ (self (snd (__init__ attributes0 w))) = false /\
  original (self (snd (__init__ attributes0 w))) = [] /\
  get_dirty (self (snd (__init__ attributes0 w))) =
  attributes (self (snd (__init__ attributes0 w))) /\
  queries (snd (__init__ attributes0 w)) = queries w /\
  ticks (snd (__init__ attributes0 w)) = ticks w /\
  declarations (self (snd (__init__ attributes0 w))) = declarations (self w) /\
  unguarded (self (snd (__init__ attributes0 w))) = unguarded (self w) /\
  (forall key,
      dict_has key (attributes (self (snd (__init__ attributes0 w)))) = true ->
      exists kv, In kv attributes0 /\
                 key = Some (_remove_table_from_key (fst kv))) /\
  (totally_guarded (self w) = true -> unguarded (self w) = false ->
   forall k v rest,
     attributes0 = (k, v) :: rest ->
     fst (__init__ attributes0 w) =
     Raise (MassAssignmentError (_remove_table_from_key k))).
Proof.
  destruct (init_frame attributes0 w) as (a & Hw & Hkeys).
  rewrite Hw.
  repeat split.
  - apply all_dirty_without_snapshot. reflexivity.
  - exact Hkeys.
  - intros Htg Hu k v rest ->.
    rewrite init_run, fill_run.
    assert (Htg' : totally_guarded (self (with_self (blank (self w)) w)) = true)
      by exact Htg.
    rewrite (totally_guarded_passes_all _ _ Htg'), Htg'.
    rewrite fill_items_cons. cbv zeta.
    rewrite totally_guarded_rejects; [reflexivity | exact Htg' | exact Hu].
Qed.

Lemma with_unguarded_same (m : Model) : with_unguarded (unguarded m) m = m.
Proof. destruct m. reflexivity. Qed.

Lemma with_self_same (w : World) : with_self (self w) w = w.
Proof. destruct w. reflexivity. Qed.

(** A call of the class: the keywords are unpacked, the constructor runs
    on a new object, and [self] is as before. *)
Lemma construct_run (attributes0 : pydict value) (w : World) :
  construct attributes0 w =
  match keywords attributes0 with
  | Raise e => (Raise e, w)
  | Ok kw =>
      (match fst (__init__ kw w) with
       | Ok _ => Ok (self (snd (__init__ kw w)))
       | Raise e => Raise e
       end, w)
  end.
Proof.
  unfold construct. unfold bind at 1. unfold get_self at 1.
  unfold bind at 1. unfold lift.
  destruct (keywords attributes0) as [kw|e]; [|reflexivity].
  unfold on, bind. rewrite with_self_same.
  destruct (init_frame kw w) as (a & Hw & _).
  destruct (__init__ kw w) as [[u|e] w'] eqn:Hrun; simpl in Hw; subst w';
    unfold get_self; simpl fst; simpl snd; cbv beta iota;
    (f_equal;
     change (unguarded (self (with_self (with_attributes a (blank (self w))) w)))
       with (unguarded (self w));
     rewrite with_unguarded_same;
     change (with_self (self w) (with_self ?m w)) with (with_self (self w) w);
     apply with_self_same).
Qed.

Lemma keywords_as_dict (attributes0 : list (string * value)) :
  keywords (as_dict attributes0) = Ok attributes0.
Proof.
  induction attributes0 as [|[k v] rest IH]; [reflexivity|].
  simpl. rewrite IH. reflexivity.
Qed.

Lemma init_nil (w : World) :
  __init__ [] w = (Ok tt, with_self (blank (self w)) w).
Proof.
  rewrite init_run, fill_run.
  assert (H : _fillable_from_dict (self (with_self (blank (self w)) w)) [] = []).
  { unfold _fillable_from_dict. now destruct (andb _ _). }
  rewrite H. reflexivity.
Qed.

Lemma new_from_builder_run (row : option (pydict value)) (w : World) :
  new_from_builder row w =
  (Ok (hydrated (self w) match row with None => [] | Some a => a end), w).
Proof.
  unfold new_from_builder, new_instance. unfold bind at 1. unfold bind at 1.
  rewrite construct_run. simpl keywords. cbv iota. rewrite init_nil.
  destruct w as [m q t]. destruct m. reflexivity.
Qed.

Lemma map_m_new_from_builder (rows : list (pydict value)) (w : World) :
  map_m (fun item => new_from_builder (Some item)) rows w =
  (Ok (map (hydrated (self w)) rows), w).
Proof.
  induction rows as [|row rows IH]; [reflexivity|].
  simpl. unfold bind at 1. rewrite new_from_builder_run.
  unfold bind at 1. rewrite IH. reflexivity.
Qed.

(** Rows read from the database become instances without passing the
    guard, the date conversion or the casts: [new_from_builder] and
    [hydrate] never raise, issue nothing and leave [self] alone, whatever
    the class guards; each instance exists and holds the row as its
    attributes and as its snapshot, so that nothing of it is dirty (the
    keys of a row being unique and no value differing from itself). *)
Theorem hydrated_rows_are_clean (w : World) :
  (forall row, new_from_builder (Some row) w = (Ok (hydrated (self w) row), w)) /\
  new_from_builder None w = (Ok (hydrated (self w) []), w) /\
  (forall rows, hydrate rows w = (Ok (map (hydrated (self w)) rows), w)) /\
  (forall row,
      NoDup (map fst row) ->
      (forall k v, In (k, v) row -> py_ne v v = false) ->
      get_dirty (hydrated (self w) row) = []).
Proof.
  split; [|split; [|split]].
  - intro row. apply new_from_builder_run.
  - apply new_from_builder_run.
  - intro rows. unfold hydrate. unfold bind at 1.
    rewrite construct_run. simpl keywords. cbv iota.
    rewrite init_nil. simpl fst. simpl snd. cbv iota.
    unfold on. rewrite map_m_new_from_builder.
    destruct w as [m q t]. destruct m. reflexivity.
  - intros row Hn Hself.
    exact (synced_is_clean (hydrated (self w) row) row Hn Hself).
Qed.

Lemma replicate_run (w : World) :
  replicate None w =
  match keywords (copied (self w)) with
  | Raise e => (Raise e, w)
  | Ok kw =>
      (match fst (__init__ kw w) with
       | Ok _ => Ok (Some (with_exists false (self (snd (__init__ kw w)))))
       | Raise e => Raise e
       end, w)
  end.
Proof.
  unfold replicate, new_instance. unfold bind at 1. unfold get_self at 1.
  unfold bind at 1. unfold bind at 1.
  rewrite construct_run. fold (copied (self w)).
  destruct (keywords (copied (self w))) as [kw|e]; [|reflexivity].
  destruct (fst (__init__ kw w)); reflexivity.
Qed.

Lemma keywords_In (d : pydict value) (kw : list (string * value)) :
  keywords d = Ok kw ->
  forall k v, In (k, v) kw <-> In (Some k, v) d.
Proof.
  revert kw. induction d as [|[[name|] x] rest IH]; intros kw H k v.
  - inversion H. simpl. tauto.
  - simpl in H. destruct (keywords rest) as [r|e]; [|discriminate].
    inversion H; subst. simpl. rewrite (IH r eq_refl k v).
    split; (intros [Heq | Hin]; [left; inversion Heq; reflexivity | now right]).
  - discriminate.
Qed.

Lemma keywords_keys (d : pydict value) (kw : list (string * value)) :
  keywords d = Ok kw ->
  map (fun kv => Some (fst kv)) kw = map fst d.
Proof.
  revert kw. induction d as [|[[name|] x] rest IH]; intros kw H.
  - inversion H. reflexivity.
  - simpl in H. destruct (keywords rest) as [r|e]; [|discriminate].
    inversion H; subst. simpl. now rewrite (IH r eq_refl).
  - discriminate.
Qed.

(** [replicate] with a list of attributes to leave out returns [None]:
    all of its body stands under [if except_ is None].  Without the list
    it builds the copy through the constructor, so through the guarded
    [fill]: [self] is untouched and nothing is issued; under total
    guarding with the flag down it raises [MassAssignmentError] for the
    first attribute it would copy; a copy it returns does not exist, has
    an empty snapshot, so that all it holds is dirty, and holds no key
    but those of the source (without their table names) other than the
    primary key and the two timestamps. *)
Theorem replicate_goes_through_fill (w : World) :
  (forall except_, replicate (Some except_) w = (Ok None, w)) /\
  snd (replicate None w) = w /\
  (forall copy,
      fst (replicate None w) = Ok (Some copy) ->
      exists_ copy = false /\
      original copy = [] /\
      get_dirty copy = attributes copy /\
      declarations copy = declarations (self w) /\
      forall key,
        dict_has key (attributes copy) = true ->
        exists k v,
          In (Some k, v) (attributes (self w)) /\
          pykey_in (Some k)
                   [get_key_name (self w); Some CREATED_AT; Some UPDATED_AT] = false /\
          key = Some (_remove_table_from_key k)) /\
  (totally_guarded (self w) = true -> unguarded (self w) = false ->
   forall k v rest,
     keywords (copied (self w)) = Ok ((k, v) :: rest) ->
     fst (replicate None w) =
     Raise (MassAssignmentError (_remove_table_from_key k))).
Proof.
  split; [reflexivity|]. rewrite replicate_run.
  split; [|split].
  - destruct (keywords (copied (self w))); reflexivity.
  - intros copy.
    destruct (keywords (copied (self w))) as [kw|e] eqn:Hkw; [|discriminate].
    destruct (init_frame kw w) as (a & Hw & Hkeys).
    simpl fst. rewrite Hw.
    destruct (fst (__init__ kw w)); [|discriminate].
    intro H. injection H as <-.
    repeat split; [apply all_dirty_without_snapshot; reflexivity|].
    intros key Hhas. destruct (Hkeys key Hhas) as ([k v] & Hin & ->).
    apply (keywords_In _ _ Hkw) in Hin.
    apply filter_In in Hin as [Hin Hex]. simpl in Hex.
    exists k, v. repeat split; [exact Hin|].
    now apply negb_true_iff in Hex.
  - intros Htg Hu k v rest Hkw. rewrite Hkw. simpl fst.
    rewrite init_run, fill_run.
    assert (Htg' : totally_guarded (self (with_self (blank (self w)) w)) = true)
      by exact Htg.
    rewrite (totally_guarded_passes_all _ _ Htg'), Htg'.
    rewrite fill_items_cons. cbv zeta.
    rewrite totally_guarded_rejects; [reflexivity | exact Htg' | exact Hu].
Qed.
End Construction.

(** ** Keys with a table name *)

Section KeyNames.
Context {E : Externals}.

Lemma after_last_dot_none (s : string) :
  after_last_dot s = None <-> has_dot s = false.
Proof.
  induction s as [|c r IH]; simpl; [tauto|].
  destruct (after_last_dot r) as [t|].
  - split; [discriminate|]. intro H. apply orb_false_iff in H as [_ H].
    apply IH in H. discriminate.
  - destruct (Ascii.eqb c "."%char); simpl.
    + split; discriminate.
    + split; intros _; [now apply IH | reflexivity].
Qed.

Lemma after_last_dot_some (s t : string) :
  after_last_dot s = Some t ->
  has_dot s = true /\ has_dot t = false /\
  exists table, s = (table ++ "." ++ t)%string.
Proof.
  revert t. induction s as [|c r IH]; intros t; simpl; [discriminate|].
  destruct (after_last_dot r) as [t'|] eqn:Hr.
  - intro H. injection H as ->.
    destruct (IH t eq_refl) as (Hd & Ht & table & ->).
    split; [now rewrite Hd, orb_true_r|]. split; [exact Ht|].
    exists (String c table). reflexivity.
  - destruct (Ascii.eqb c "."%char) eqn:Hc; [|discriminate].
    intro H. injection H as ->.
    split; [reflexivity|]. split; [now apply after_last_dot_none|].
    apply Ascii.eqb_eq in Hc. subst c. exists EmptyString. reflexivity.
Qed.

Lemma remove_table_from_key_plain (key : string) :
  has_dot key = false -> _remove_table_from_key key = key.
Proof.
  intro H. unfold _remove_table_from_key.
  apply after_last_dot_none in H. now rewrite H.
Qed.

(** [_remove_table_from_key] returns a key without a dot: the key itself
    when it has none, and otherwise what follows its last dot, whatever
    stands before; applied twice it gives what it gives once. *)
Theorem remove_table_from_key_is_last_part (key : string) :
  has_dot (_remove_table_from_key key) = false /\
  (has_dot key = false -> _remove_table_from_key key = key) /\
  (has_dot key = true ->
   exists table, key = (table ++ "." ++ _remove_table_from_key key)%string) /\
  _remove_table_from_key (_remove_table_from_key key) =
  _remove_table_from_key key.
Proof.
  assert (Hno : has_dot (_remove_table_from_key key) = false).
  { unfold _remove_table_from_key.
    destruct (after_last_dot key) as [t|] eqn:H.
    - now apply after_last_dot_some in H.
    - now apply after_last_dot_none. }
  split; [exact Hno|]. split; [apply remove_table_from_key_plain|].
  split; [|now apply remove_table_from_key_plain].
  intro Hd. unfold _remove_table_from_key.
  destruct (after_last_dot key) as [t|] eqn:H.
  - now apply after_last_dot_some in H.
  - apply after_last_dot_none in H. congruence.
Qed.
End KeyNames.

(** ** What a copy holds *)

Section Copies.
Context {E : Externals}.

(** An entry whose key [is_fillable] accepts reaches the loop of [fill],
    when its key names no table. *)
Lemma fillable_from_dict_keeps (m : Model) (input : list (string * value))
      (k : string) (v : value) :
  is_fillable m k = true -> In (k, v) input ->
  In (k, v) (_fillable_from_dict m input).
Proof.
  unfold is_fillable, _fillable_from_dict. intros Hf Hin.
  destruct (unguarded m); [now rewrite andb_false_r|].
  destruct (fillable m) as [|f fs] eqn:Hfl; [exact Hin|].
  simpl andb. cbv iota. apply filter_In. split; [exact Hin|]. simpl fst.
  destruct (str_in k (f :: fs)); [reflexivity|].
  destruct (is_guarded m k); [discriminate|]. simpl in Hf. discriminate.
Qed.

(** [replicate] does not hand the stored values over as they are: each
    goes through [set_attribute] again.  When it returns a copy, an
    attribute of the source that is not left out and whose key
    [is_fillable] accepts is in the copy in the storage form of its
    stored value, so that the JSON text of a column with a structured
    cast is serialized once more.  The keys of the source are unique and
    name no table. *)
Theorem replicate_encodes_again
        (w : World) (copy : Model) (k : string) (v : value) :
  fst (replicate None w) = Ok (Some copy) ->
  NoDup (map fst (attributes (self w))) ->
  (forall k' v', In (Some k', v') (attributes (self w)) -> has_dot k' = false) ->
  In (Some k, v) (attributes (self w)) ->
  pykey_in (Some k) [get_key_name (self w); Some CREATED_AT; Some UPDATED_AT]
  = false ->
  is_fillable (self w) k = true ->
  exists s,
    storage_form (blank (self w)) (Some k) v = Ok s /\
    dict_get (Some k) (attributes copy) = Some s.
Proof.
  intros Hrun Hn Hplain Hin Hex Hf.
  rewrite replicate_run in Hrun.
  destruct (keywords (copied (self w))) as [kw|e] eqn:Hkw; [|discriminate].
  simpl fst in Hrun.
  destruct (__init__ kw w) as [[[]|e] w'] eqn:Hinit; [|discriminate].
  simpl in Hrun. injection Hrun as <-.
  change (attributes (with_exists false (self w'))) with (attributes (self w')).
  rewrite init_run, fill_run in Hinit.
  assert (Hkin : In (k, v) kw).
  { apply (keywords_In _ _ Hkw). apply filter_In. split; [exact Hin|].
    simpl fst. now rewrite Hex. }
  assert (Hkw_plain : forall kv, In kv kw -> _remove_table_from_key (fst kv) = fst kv).
  { intros [k' v'] Hk'. apply remove_table_from_key_plain.
    apply (keywords_In _ _ Hkw) in Hk'. apply filter_In in Hk' as [Hk' _].
    exact (Hplain k' v' Hk'). }
  assert (Hnd : NoDup (map (fun kv => _remove_table_from_key (fst kv)) kw)).
  { rewrite (map_ext_in _ fst) by exact Hkw_plain.
    apply (NoDup_map_inv Some). rewrite map_map.
    rewrite (keywords_keys _ _ Hkw). now apply NoDup_map_filter. }
  pose proof (Hkw_plain (k, v) Hkin) as Hk. simpl in Hk.
  destruct (fill_items_stores _ _ _ _ Hinit) with (k := k) (v := v)
    as (s & Hs & Hget).
  - unfold _fillable_from_dict. destruct (andb _ _); [|exact Hnd].
    now apply NoDup_map_filter.
  - apply fillable_from_dict_keeps; [exact Hf | exact Hkin].
  - rewrite Hk. exact Hf.
  - rewrite Hk in Hs, Hget. exists s. split; [exact Hs | exact Hget].
Qed.
End Copies.

(** ** Removing an attribute, syncing one *)

Section StoreEdits.
Context {E : Externals}.

Lemma dict_get_del_same {V} (k : pykey) (d : pydict V) :
  dict_get k (dict_del k d) = None.
Proof.
  unfold dict_del. induction d as [|[a x] r IH]; simpl; [reflexivity|].
  destruct (key_eqb k a) eqn:Ha; simpl; [exact IH|]. now rewrite Ha.
Qed.

Lemma dict_get_del_other {V} (k k' : pykey) (d : pydict V) :
  k <> k' -> dict_get k (dict_del k' d) = dict_get k d.
Proof.
  intro N. unfold dict_del.
  apply (dict_get_filter_key (fun a => negb (key_eqb k' a))).
  apply negb_true_iff. apply key_eqb_neq. congruence.
Qed.

Lemma filter_comm {A} (p q : A -> bool) (l : list A) :
  filter p (filter q l) = filter q (filter p l).
Proof.
  induction l as [|x l IH]; [reflexivity|]. simpl.
  destruct (p x) eqn:Hp, (q x) eqn:Hq; simpl; rewrite ?Hp, ?Hq, IH; reflexivity.
Qed.

(** Looking up [k] in a filtered dictionary depends on the filter at the
    entries of [k] only. *)
Lemma dict_get_filter_ext {V} (p q : pykey * V -> bool) (k : pykey)
      (d : pydict V) :
  (forall x, In (k, x) d -> p (k, x) = q (k, x)) ->
  dict_get k (filter p d) = dict_get k (filter q d).
Proof.
  induction d as [|[a x] r IH]; intro H; [reflexivity|]. simpl.
  assert (Hr : dict_get k (filter p r) = dict_get k (filter q r)).
  { apply IH. intros y Hy. apply H. now right. }
  destruct (key_eqb k a) eqn:Ha.
  - apply key_eqb_eq in Ha. subst a.
    rewrite <- (H x (or_introl eq_refl)).
    destruct (p (k, x)); simpl; [now rewrite key_eqb_refl | exact Hr].
  - destruct (p (a, x)), (q (a, x)); simpl; rewrite ?Ha; exact Hr.
Qed.

Lemma dict_get_filter_out {V} (p : pykey * V -> bool) (k : pykey)
      (d : pydict V) :
  (forall x, In (k, x) d -> p (k, x) = false) ->
  dict_get k (filter p d) = None.
Proof.
  induction d as [|[a x] r IH]; intro H; [reflexivity|]. simpl.
  assert (Hr : dict_get k (filter p r) = None).
  { apply IH. intros y Hy. apply H. now right. }
  destruct (key_eqb k a) eqn:Ha.
  - apply key_eqb_eq in Ha. subst a.
    now rewrite (H x (or_introl eq_refl)).
  - destruct (p (a, x)); simpl; rewrite ?Ha; exact Hr.
Qed.

(** [del model.item] removes the attribute and nothing else, and raises
    [AttributeError] when there is none.  The removal is no change that
    [get_dirty] sees: the dirty set only loses the attribute, so that a
    [save] of an existing instance that was clean issues nothing and
    takes the removal into the snapshot. *)
Theorem deleted_attribute_is_not_written (item : string) (w : World) :
  (dict_has (Some item) (attributes (self w)) = false ->
   __delattr__ item w = (Raise (AttributeError (Some item)), w)) /\
  (dict_has (Some item) (attributes (self w)) = true ->
   fst (__delattr__ item w) = Ok tt /\
   dict_has (Some item) (attributes (self (snd (__delattr__ item w)))) = false /\
   (forall k, k <> Some item ->
              dict_get k (attributes (self (snd (__delattr__ item w)))) =
              dict_get k (attributes (self w))) /\
   original (self (snd (__delattr__ item w))) = original (self w) /\
   queries (snd (__delattr__ item w)) = queries w /\
   get_dirty (self (snd (__delattr__ item w))) =
   dict_del (Some item) (get_dirty (self w)) /\
   (exists_ (self w) = true -> get_dirty (self w) = [] ->
    forall options,
      save options (snd (__delattr__ item w)) =
      (Ok (VBool true), synced (snd (__delattr__ item w))))).
Proof.
  unfold __delattr__, bind, get_self.
  destruct (dict_has (Some item) (attributes (self w))) eqn:Hhas.
  - split; [discriminate|]. intros _. unfold modify_self. simpl fst. simpl snd.
    change (self (with_self ?m w)) with m.
    change (attributes (with_attributes ?a _)) with a.
    assert (Hd : get_dirty
                   (with_attributes (dict_del (Some item) (attributes (self w)))
                                    (self w)) =
                 dict_del (Some item) (get_dirty (self w))).
    { unfold get_dirty, dict_del. apply filter_comm. }
    repeat split.
    + unfold dict_has. now rewrite dict_get_del_same.
    + intros k N. now apply dict_get_del_other.
    + exact Hd.
    + intros Hex Hclean options.
      rewrite save_run.
      change (exists_ (self (with_self (with_attributes ?a (self w)) w)))
        with (exists_ (self w)).
      rewrite Hex, perform_update_run.
      change (self (with_self ?m w)) with m.
      rewrite Hd, Hclean. reflexivity.
  - split; [reflexivity | discriminate].
Qed.

(** [sync_original_attribute] raises [KeyError] for an attribute the
    model does not hold.  Otherwise it copies that one value into the
    snapshot: the attributes stay, the attribute is no longer dirty (a
    value that does not differ from itself, under unique keys), and what
    is dirty of any other attribute is as before. *)
Theorem sync_original_attribute_cleans_one (attribute : pykey) (w : World) :
  (dict_get attribute (attributes (self w)) = None ->
   sync_original_attribute attribute w = (Raise (KeyError attribute), w)) /\
  (forall v,
      dict_get attribute (attributes (self w)) = Some v ->
      fst (sync_original_attribute attribute w) = Ok tt /\
      attributes (self (snd (sync_original_attribute attribute w))) =
      attributes (self w) /\
      exists_ (self (snd (sync_original_attribute attribute w))) =
      exists_ (self w) /\
      queries (snd (sync_original_attribute attribute w)) = queries w /\
      dict_get attribute
               (original (self (snd (sync_original_attribute attribute w)))) =
      Some v /\
      (forall k, k <> attribute ->
                 dict_get k (original (self (snd (sync_original_attribute
                                                   attribute w)))) =
                 dict_get k (original (self w))) /\
      (forall k, k <> attribute ->
                 dict_get k (get_dirty (self (snd (sync_original_attribute
                                                    attribute w)))) =
                 dict_get k (get_dirty (self w))) /\
      (NoDup (map fst (attributes (self w))) -> py_ne v v = false ->
       dict_has attribute
                (get_dirty (self (snd (sync_original_attribute attribute w)))) =
       false)).
Proof.
  unfold sync_original_attribute, bind, get_self.
  destruct (dict_get attribute (attributes (self w))) as [v0|] eqn:Hget.
  - split; [discriminate|]. intros v Hv. injection Hv as <-.
    unfold modify_self. simpl fst. simpl snd.
    change (self (with_self ?m w)) with m.
    repeat split.
    + apply dict_get_set_same.
    + intros k N. now apply dict_get_set_other.
    + intros k N. unfold get_dirty.
      change (attributes (with_original ?o (self w))) with (attributes (self w)).
      change (original (with_original ?o (self w))) with o.
      apply dict_get_filter_ext. intros x _. simpl fst.
      now rewrite dict_get_set_other.
    + intros Hn Hself. unfold dict_has, get_dirty.
      change (attributes (with_original ?o (self w))) with (attributes (self w)).
      change (original (with_original ?o (self w))) with o.
      rewrite dict_get_filter_out; [reflexivity|].
      intros x Hin. simpl.
      rewrite dict_get_set_same.
      rewrite (dict_get_In_NoDup _ _ _ Hn Hin) in Hget.
      injection Hget as ->. exact Hself.
  - split; [reflexivity|]. intros v Hv. discriminate.
Qed.
End StoreEdits.

(** ** The columns of a serialized model *)

Section Columns.
Context {E : Externals}.

Lemma map_fst_filter {A B} (p : A -> bool) (l : list (A * B)) :
  map fst (filter (fun kv => p (fst kv)) l) = filter p (map fst l).
Proof.
  induction l as [|[a b] l IH]; [reflexivity|]. simpl.
  destruct (p a); simpl; now rewrite IH.
Qed.

Lemma dictable_items_keys (m : Model) (values r : pydict value) :
  _get_dictable_items m values = Ok r ->
  map fst r = filter (dictable_key m) (map fst values).
Proof.
  unfold _get_dictable_items.
  destruct (Nat.ltb 0 (List.length (visible m))) eqn:Hv.
  - intro H. injection H as <-.
    rewrite (map_fst_filter (fun k => key_in k (visible m))).
    apply filter_ext. intros [name|]; unfold dictable_key, dictable; simpl;
      [now rewrite Hv | reflexivity].
  - assert (Hdk : forall name,
               dictable_key m (Some name) =
               andb (negb (str_in name (hidden m)))
                    (negb (starts_with_underscore name))).
    { intro name. unfold dictable_key, dictable. now rewrite Hv. }
    revert r. induction values as [|[x v] rest IH]; intros r; simpl.
    + intro H. injection H as <-. reflexivity.
    + destruct (key_in x (hidden m)) eqn:Hx.
      * intro H. rewrite (IH _ H).
        destruct x as [name|]; [|discriminate].
        change (str_in name (hidden m) = true) in Hx.
        now rewrite (Hdk name), Hx.
      * destruct x as [name|]; [|discriminate].
        destruct (dictable_without_hidden m rest) as [r0|e]; [|discriminate].
        unfold rbind. specialize (IH r0 eq_refl).
        change (str_in name (hidden m) = false) in Hx.
        rewrite (Hdk name), Hx.
        change (negb false) with true. rewrite andb_true_l.
        destruct (starts_with_underscore name); intro H; injection H as <-;
          simpl; now rewrite IH.
Qed.

Lemma dict_set_present_keys {V} (k : pykey) (v x : V) (d : pydict V) :
  dict_get k d = Some x -> map fst (dict_set k v d) = map fst d.
Proof.
  intro H. rewrite dict_set_keys. unfold dict_has. now rewrite H.
Qed.

Lemma format_dates_keys (keys : list string) (attrs r : pydict value) :
  format_dates keys attrs = Ok r -> map fst r = map fst attrs.
Proof.
  revert attrs. induction keys as [|k keys IH]; intros attrs; simpl.
  - intro H. now injection H as <-.
  - destruct (dict_get (Some k) attrs) as [v|] eqn:Hget; [|apply IH].
    destruct (as_datetime v) as [d|e]; [|discriminate]. simpl.
    destruct (_format_date d) as [t|e]; [|discriminate]. simpl.
    intro H. rewrite (IH _ H). eapply dict_set_present_keys; eauto.
Qed.

Lemma cast_all_keys (m : Model) (items : pydict string) (attrs r : pydict value) :
  cast_all m items attrs = Ok r -> map fst r = map fst attrs.
Proof.
  revert attrs. induction items as [|[a t] items IH]; intros attrs; simpl.
  - intro H. now injection H as <-.
  - destruct (dict_get a attrs) as [v|] eqn:Hget; [|apply IH].
    destruct (_cast_attribute m a v) as [c|e]; [|discriminate]. simpl.
    intro H. rewrite (IH _ H). eapply dict_set_present_keys; eauto.
Qed.

Lemma dict_has_keys {V} (k : pykey) (d : pydict V) :
  dict_has k d = true -> In k (map fst d).
Proof.
  unfold dict_has. destruct (dict_get k d) as [v|] eqn:H; [|discriminate].
  intros _. apply dict_get_In in H. apply in_map_iff. now exists (k, v).
Qed.

(** The dictionary [to_dict] returns has the keys that
    [_get_dictable_items] keeps, in the order of the attributes: the
    date formatting and the casts add none, drop none and move none.  A
    hidden column (or, with [visible] declared, one that is not listed)
    is never in it, and a column that is kept, is no date and has no
    cast carries its stored value. *)
Theorem to_dict_shows_dictable_columns (m : Model) (d : pydict value) :
  to_dict m = Ok d ->
  map fst d = filter (dictable_key m) (map fst (attributes m)) /\
  (forall key, dictable m key = false -> dict_has (Some key) d = false) /\
  (forall key,
      dictable m key = true ->
      str_in key (get_dates m) = false ->
      dict_has (Some key) (casts m) = false ->
      dict_get (Some key) d = dict_get (Some key) (attributes m)).
Proof.
  unfold to_dict, attributes_to_dict, _get_dictable_attributes.
  destruct (_get_dictable_items m (attributes m)) as [a1|e] eqn:H1; [|discriminate].
  simpl.
  destruct (format_dates (get_dates m) a1) as [a2|e] eqn:H2; [|discriminate].
  simpl. intro H3.
  assert (Hkeys : map fst d = filter (dictable_key m) (map fst (attributes m))).
  { rewrite (cast_all_keys _ _ _ _ H3), (format_dates_keys _ _ _ H2).
    now apply dictable_items_keys. }
  split; [exact Hkeys|]. split.
  - intros key Hd. destruct (dict_has (Some key) d) eqn:Hhas; [|reflexivity].
    apply dict_has_keys in Hhas. rewrite Hkeys in Hhas.
    apply filter_In in Hhas as [_ Hk]. simpl in Hk. congruence.
  - intros key Hd Hdate Hcast.
    rewrite (cast_all_keeps _ _ _ _ _ (dict_has_false_keys _ _ Hcast) H3).
    rewrite (format_dates_keeps _ _ _ _ Hdate H2).
    now apply (dictable_items_keep m).
Qed.
End Columns.

(** ** Creating through the class *)

Section Creation.
Context {E : Externals}.

(** [create]: the constructor, then [save] on the new object; [self],
    the class, is as before. *)
Lemma create_run (attributes0 : list (string * value)) (w : World) :
  create attributes0 w =
  match fst (__init__ attributes0 w) with
  | Raise e => (Raise e, w)
  | Ok _ =>
      let s := save [] (with_self (self (snd (__init__ attributes0 w))) w) in
      (match fst s with
       | Ok _ => Ok (self (snd s))
       | Raise e => Raise e
       end,
       mkWorld (self w) (queries (snd s)) (ticks (snd s)))
  end.
Proof.
  unfold create. unfold bind at 1.
  rewrite construct_run, keywords_as_dict.
  destruct (init_frame attributes0 w) as (a & Hw & _).
  destruct (fst (__init__ attributes0 w)) as [u|e]; [|reflexivity].
  cbv zeta. unfold on. unfold bind at 1.
  set (model := self (snd (__init__ attributes0 w))).
  assert (Hu : unguarded model = unguarded (self w)).
  { unfold model. rewrite Hw. reflexivity. }
  pose proof (save_flag_frame [] (with_self model w)) as Hu2.
  change (self (with_self model w)) with model in Hu2.
  destruct (save [] (with_self model w)) as [[r|e] w2] eqn:Hs;
    simpl snd in Hu2; unfold get_self; simpl fst; simpl snd; cbv iota;
    rewrite Hu2, Hu, with_unguarded_same; reflexivity.
Qed.

Lemma force_create_run (attributes0 : list (string * value)) (w : World) :
  force_create attributes0 w =
  match create attributes0 (with_self (with_unguarded true (self w)) w) with
  | (Ok model, w') =>
      (Ok (with_unguarded false model),
       with_self (with_unguarded false (self w')) w')
  | (Raise e, w') => (Raise e, w')
  end.
Proof.
  unfold force_create, unguard, reguard. unfold bind at 1.
  unfold modify_self at 1. unfold bind at 1.
  destruct (create attributes0 _) as [[model|e] w']; reflexivity.
Qed.

(** [create] builds the instance through the guarded constructor: under
    total guarding with the flag down it raises [MassAssignmentError]
    for its first keyword and issues nothing.  [force_create] lifts the
    guard around it: the instance it returns exists, with its snapshot
    taken, and the flag of the class is down again; when the constructor
    or the save raises, [reguard] is never reached and the class stays
    unguarded.  Neither way is anything else of [self] changed. *)
Theorem create_by_guard (attributes0 : list (string * value)) (w : World) :
  (totally_guarded (self w) = true -> unguarded (self w) = false ->
   forall k v rest,
     attributes0 = (k, v) :: rest ->
     create attributes0 w =
     (Raise (MassAssignmentError (_remove_table_from_key k)), w)) /\
  self (snd (create attributes0 w)) = self w /\
  (forall model,
      fst (force_create attributes0 w) = Ok model ->
      self (snd (force_create attributes0 w)) = with_unguarded false (self w) /\
      unguarded model = false /\
      exists_ model = true /\
      original model = attributes model /\
      declarations model = declarations (self w)) /\
  (forall e,
      fst (force_create attributes0 w) = Raise e ->
      self (snd (force_create attributes0 w)) = with_unguarded true (self w)).
Proof.
  split; [|split; [|split]].
  - intros Htg Hu k v rest ->. rewrite create_run.
    rewrite init_run, fill_run.
    assert (Htg' : totally_guarded (self (with_self (blank (self w)) w)) = true)
      by exact Htg.
    rewrite (totally_guarded_passes_all _ _ Htg'), Htg'.
    rewrite fill_items_cons. cbv zeta.
    rewrite totally_guarded_rejects; [reflexivity | exact Htg' | exact Hu].
  - rewrite create_run.
    destruct (fst (__init__ attributes0 w)); reflexivity.
  - intros model. rewrite force_create_run, create_run.
    set (wu := with_self (with_unguarded true (self w)) w).
    destruct (init_frame attributes0 wu) as (a & Hw & _).
    destruct (fst (__init__ attributes0 wu)) as [u|e]; [|discriminate].
    cbv zeta.
    destruct (save [] (with_self (self (snd (__init__ attributes0 wu))) wu))
      as [[r|e] w2] eqn:Hs; [|discriminate].
    destruct (save_ok_inv _ _ _ _ Hs) as (Hex & Ho & _ & Hd & _).
    simpl fst. simpl snd. intro H. injection H as <-.
    repeat split; try assumption.
    change (declarations (with_unguarded false (self w2)))
      with (declarations (self w2)).
    rewrite Hd. change (self (with_self ?m wu)) with m. rewrite Hw.
    reflexivity.
  - intros e. rewrite force_create_run, create_run.
    set (wu := with_self (with_unguarded true (self w)) w).
    destruct (fst (__init__ attributes0 wu)) as [u|e0]; [|reflexivity].
    cbv zeta.
    destruct (fst (save [] (with_self (self (snd (__init__ attributes0 wu))) wu)));
      [discriminate | reflexivity].
Qed.
End Creation.

(** ** Reading an attribute back *)

Section Reading.
Context {E : Externals}.

Lemma not_json_castable_without_cast (m : Model) (key : pykey) :
  _has_cast m key = false -> _is_json_castable m key = false.
Proof. unfold _is_json_castable. now intros ->. Qed.

Lemma storage_form_plain (m : Model) (key : pykey) (v : value) :
  _has_cast m key = false -> key_in key (get_dates m) = false ->
  storage_form m key v = Ok v.
Proof.
  intros Hc Hd. unfold storage_form.
  now rewrite Hd, (not_json_castable_without_cast _ _ Hc).
Qed.

Lemma storage_form_arrow (m : Model) (key : pykey) (wall offset : Z) :
  _has_cast m key = false -> key_in key (get_dates m) = true ->
  storage_form m key (VArrow wall offset) = Ok (VDatetime wall).
Proof.
  intros Hc Hd. unfold storage_form.
  now rewrite Hd, (not_json_castable_without_cast _ _ Hc).
Qed.

(** [get_attribute] raises [AttributeError] for a key the model does not
    hold.  A column without a cast that is no date column reads back
    exactly what [set_attribute] was given; storing under one key
    changes what no other key reads.  A date column without a cast
    keeps, of an Arrow, the naive datetime only (the offset is dropped
    on the way in) and reads back what arrow makes of that datetime. *)
Theorem attribute_read_back (key : pykey) (v : value) (w : World) :
  (dict_has key (attributes (self w)) = false ->
   get_attribute (self w) key = Raise (AttributeError key)) /\
  (_has_cast (self w) key = false ->
   key_in key (get_dates (self w)) = false ->
   set_attribute key v w = (Ok tt, stored key v w) /\
   get_attribute (self (stored key v w)) key = Ok v) /\
  (forall s other,
      other <> key ->
      get_attribute (self (stored key s w)) other =
      get_attribute (self w) other) /\
  (_has_cast (self w) key = false ->
   key_in key (get_dates (self w)) = true ->
   forall wall offset,
     set_attribute key (VArrow wall offset) w =
     (Ok tt, stored key (VDatetime wall) w) /\
     get_attribute (self (stored key (VDatetime wall) w)) key =
     as_datetime (VDatetime wall)).
Proof.
  split; [|split; [|split]].
  - intro H. unfold get_attribute. now rewrite H.
  - intros Hc Hd. rewrite set_attribute_run, (storage_form_plain _ _ _ Hc Hd).
    split; [reflexivity|].
    unfold get_attribute. rewrite self_stored.
    change (attributes (with_attributes ?a _)) with a.
    rewrite dict_has_set_same.
    unfold _get_attribute_value, _get_attribute_from_dict.
    change (attributes (with_attributes ?a _)) with a.
    rewrite dict_get_set_same.
    change (_has_cast (with_attributes ?a (self w)) key)
      with (_has_cast (self w) key).
    change (get_dates (with_attributes ?a (self w))) with (get_dates (self w)).
    now rewrite Hc, Hd.
  - intros s other N.
    unfold get_attribute, _get_attribute_value, _get_attribute_from_dict, dict_has.
    rewrite self_stored.
    change (attributes (with_attributes ?a _)) with a.
    rewrite (dict_get_set_other _ _ _ _ N).
    reflexivity.
  - intros Hc Hd wall offset.
    rewrite set_attribute_run, (storage_form_arrow _ _ _ _ Hc Hd).
    split; [reflexivity|].
    unfold get_attribute. rewrite self_stored.
    change (attributes (with_attributes ?a _)) with a.
    rewrite dict_has_set_same.
    unfold _get_attribute_value, _get_attribute_from_dict.
    change (attributes (with_attributes ?a _)) with a.
    rewrite dict_get_set_same.
    change (_has_cast (with_attributes ?a (self w)) key)
      with (_has_cast (self w) key).
    change (get_dates (with_attributes ?a (self w))) with (get_dates (self w)).
    now rewrite Hc, Hd.
Qed.
End Reading.

(** ** The further properties on instances *)

Section MoreInstances.
Import Examples.
#[local] Existing Instance Reference.collaborators.

(** [fill_stores_accepted] on the account: of the two keywords only
    [name] is open to mass assignment, and it is stored. *)
Lemma fill_stores_accepted_witness :
  exists s,
    storage_form (self account) (Some "name") (VStr "z") = Ok s /\
    dict_get (Some "name")
             (attributes (self (snd (fill [("name", VStr "z"); ("id", VInt 9)]
                                          account)))) = Some s.
Proof.
  refine (fill_stores_accepted (E := Reference.collaborators)
            [("name", VStr "z"); ("id", VInt 9)] account
            (snd (fill [("name", VStr "z"); ("id", VInt 9)] account))
            "name" (VStr "z") eq_refl _ _ eq_refl).
  - repeat constructor; simpl; intuition discriminate.
  - left. reflexivity.
Defined.

(** [failed_save_keeps_state] on a new instance behind a connection that
    is down: the insert raises, and the instance still does not exist. *)
Lemma failed_save_keeps_state_witness :
  fst (save (E := Reference.offline) [] brand_new) = Raise External /\
  exists_ (self (snd (save (E := Reference.offline) [] brand_new))) = false /\
  original (self (snd (save (E := Reference.offline) [] brand_new))) = [].
Proof.
  split; [reflexivity|].
  destruct (failed_save_keeps_state (E := Reference.offline)
              [] brand_new External eq_refl) as (Hex & Ho & _).
  split; [exact Hex | exact Ho].
Defined.

(** [successful_save_is_synced] on the edited instance. *)
Lemma successful_save_is_synced_witness :
  save [] edited = (Ok (VBool true), synced (issued edited_update edited_stamped)) /\
  original (self (synced (issued edited_update edited_stamped))) =
  attributes (self (synced (issued edited_update edited_stamped))).
Proof.
  split; [reflexivity|].
  exact (proj1 (proj2 (successful_save_is_synced (E := Reference.collaborators)
                         [] edited
                         (synced (issued edited_update edited_stamped))
                         (VBool true) eq_refl))).
Defined.

(** [save_after_insert_is_quiet] on the instance that was never saved. *)
Lemma save_after_insert_is_quiet_witness :
  exists_ (self brand_new) = false /\
  save [] (snd (save [] brand_new)) = (Ok (VBool true), snd (save [] brand_new)).
Proof.
  split; [reflexivity|].
  refine (save_after_insert_is_quiet (E := Reference.collaborators)
            [] [] brand_new (snd (save [] brand_new)) (VBool true)
            eq_refl _ eq_refl _).
  - repeat constructor; simpl; intuition discriminate.
  - intros k v Hin. simpl in Hin.
    repeat (destruct Hin as [Hin | Hin];
            [injection Hin as _ <-; reflexivity|]).
    contradiction.
Defined.

(** [save_of_new_instance] on an instance whose key is not generated:
    one plain insert. *)
Lemma save_of_new_instance_witness :
  queries (snd (save [] tagged)) = [Insert [(Some "code", VStr "x")]] /\
  exists_ (self (snd (save [] tagged))) = true.
Proof.
  destruct (save_of_new_instance (E := Reference.collaborators)
              [] tagged tagged eq_refl eq_refl) as [Hq Hrun].
  split; [exact Hq|].
  rewrite (Hrun eq_refl (VInt 1) eq_refl). reflexivity.
Defined.


(** [replicate_encodes_again] on the account: [name] is handed over,
    the key and the hidden [secret], which is not open to mass
    assignment, are not. *)
Lemma replicate_encodes_again_witness :
  fst (replicate None account) =
  Ok (Some (with_exists false
              (with_original []
                 (with_attributes [(Some "name", VStr "a")] (self account))))) /\
  exists s,
    storage_form (blank (self account)) (Some "name") (VStr "a") = Ok s /\
    dict_get (Some "name") [(Some "name", VStr "a")] = Some s.
Proof.
  split; [reflexivity|].
  refine (replicate_encodes_again (E := Reference.collaborators) account
            (with_exists false
               (with_original []
                  (with_attributes [(Some "name", VStr "a")] (self account))))
            "name" (VStr "a") eq_refl _ _ _ eq_refl eq_refl).
  - repeat constructor; simpl; intuition discriminate.
  - intros k v Hin. simpl in Hin.
    repeat (destruct Hin as [Hin | Hin];
            [injection Hin as <- _; reflexivity|]).
    contradiction.
  - right. left. reflexivity.
Defined.

(** [to_dict_shows_dictable_columns] on the account: the hidden column
    is left out, the others come in their order. *)
Lemma to_dict_shows_dictable_columns_witness :
  to_dict (self account) = Ok [(Some "id", VInt 1); (Some "name", VStr "a")] /\
  map fst [(Some "id", VInt 1); (Some "name", VStr "a")] =
  filter (dictable_key (self account)) (map fst account_row).
Proof.
  split; [reflexivity|].
  exact (proj1 (to_dict_shows_dictable_columns (E := Reference.collaborators)
                  (self account)
                  [(Some "id", VInt 1); (Some "name", VStr "a")] eq_refl)).
Defined.


(** [replicate_goes_through_fill] on the loaded user, whose type is
    totally guarded: no copy can be made. *)
Lemma replicate_goes_through_fill_witness :
  fst (replicate None loaded) = Raise (MassAssignmentError "name").
Proof.
  exact (proj2 (proj2 (proj2 (replicate_goes_through_fill
                                (E := Reference.collaborators) loaded)))
           eq_refl eq_refl "name" (VStr "a") [] eq_refl).
Defined.

(** [create_by_guard] on the users: [create] refuses its keyword and
    issues nothing; [force_create] behind a connection that is down
    leaves the class unguarded. *)
Lemma create_by_guard_witness :
  create [("name", VStr "n")] loaded =
  (Raise (MassAssignmentError "name"), loaded) /\
  self (snd (force_create (E := Reference.offline) [("name", VStr "n")] loaded)) =
  with_unguarded true user.
Proof.
  split.
  - exact (proj1 (create_by_guard (E := Reference.collaborators)
                    [("name", VStr "n")] loaded)
             eq_refl eq_refl "name" (VStr "n") [] eq_refl).
  - exact (proj2 (proj2 (proj2 (create_by_guard (E := Reference.offline)
                                  [("name", VStr "n")] loaded)))
             External eq_refl).
Defined.

(** [deleted_attribute_is_not_written] on the loaded user: after
    [del user.name] a save issues nothing. *)
Lemma deleted_attribute_is_not_written_witness :
  fst (__delattr__ "name" loaded) = Ok tt /\
  queries (snd (save [] (snd (__delattr__ "name" loaded)))) = [] /\
  __delattr__ "email" loaded = (Raise (AttributeError (Some "email")), loaded).
Proof.
  destruct (deleted_attribute_is_not_written (E := Reference.collaborators)
              "name" loaded) as [_ Hpresent].
  destruct (Hpresent eq_refl) as (Hok & _ & _ & _ & _ & _ & Hsave).
  split; [exact Hok|]. split.
  - rewrite (Hsave eq_refl eq_refl []). reflexivity.
  - exact (proj1 (deleted_attribute_is_not_written
                    (E := Reference.collaborators) "email" loaded) eq_refl).
Defined.

(** [sync_original_attribute_cleans_one] on the edited user: [name] is
    clean afterwards, the key is as dirty as before. *)
Lemma sync_original_attribute_cleans_one_witness :
  dict_has (Some "name")
           (get_dirty (self (snd (sync_original_attribute (Some "name") edited)))) =
  false /\
  dict_get (Some "id")
           (get_dirty (self (snd (sync_original_attribute (Some "name") edited)))) =
  dict_get (Some "id") (get_dirty (self edited)).
Proof.
  destruct (proj2 (sync_original_attribute_cleans_one
                     (E := Reference.collaborators) (Some "name") edited)
              (VStr "b") eq_refl)
    as (_ & _ & _ & _ & _ & _ & Hother & Hclean).
  split.
  - apply Hclean; [|reflexivity].
    repeat constructor; simpl; intuition discriminate.
  - apply Hother. discriminate.
Defined.

(** [fill_respects_guard] on the account: the key is not open to mass
    assignment and keeps its value. *)
Lemma fill_respects_guard_witness :
  dict_get (Some "id")
           (attributes (self (snd (fill [("name", VStr "z"); ("id", VInt 9)]
                                        account)))) =
  Some (VInt 1).
Proof.
  destruct (fill_respects_guard (E := Reference.collaborators)
              [("name", VStr "z"); ("id", VInt 9)] account)
    as (_ & _ & _ & _ & _ & _ & _ & Hrej & _).
  rewrite (Hrej "id" eq_refl). reflexivity.
Defined.

(** [force_fill_flag] on the loaded user, whose type is totally
    guarded. *)
Lemma force_fill_flag_witness :
  unguarded (self (snd (force_fill [("users.name", VStr "z")] loaded))) = false /\
  dict_has (Some "name")
           (attributes (self (snd (force_fill [("users.name", VStr "z")] loaded)))) =
  true.
Proof.
  destruct (proj1 (force_fill_flag (E := Reference.collaborators)
                     [("users.name", VStr "z")] loaded) eq_refl)
    as [Hflag Hhas].
  split; [exact Hflag|].
  exact (Hhas ("users.name", VStr "z") (or_introl eq_refl)).
Defined.

(** [update_by_state] on the users: an instance that exists refuses the
    attribute, one that does not hands it to an update of every row. *)
Lemma update_by_state_witness :
  update [("name", VStr "z")] loaded =
  (Raise (MassAssignmentError "name"), loaded) /\
  queries (snd (update [("name", VStr "z")] brand_new)) =
  [Update [] [(Some "name", VStr "z")]] /\
  self (snd (update [("name", VStr "z")] brand_new)) = self brand_new.
Proof.
  split.
  - exact (proj2 (proj2 (update_by_state (E := Reference.collaborators)
                           [("name", VStr "z")] loaded))
             eq_refl eq_refl eq_refl "name" (VStr "z") [] eq_refl).
  - rewrite (proj1 (update_by_state (E := Reference.collaborators)
                      [("name", VStr "z")] brand_new) eq_refl).
    split; reflexivity.
Defined.

(** [constructor_snapshot_is_empty] on the users and on the accounts. *)
Lemma constructor_snapshot_is_empty_witness :
  fst (__init__ [("name", VStr "n")] loaded) =
  Raise (MassAssignmentError "name") /\
  get_dirty (self (snd (__init__ [("name", VStr "n")] account))) =
  [(Some "name", VStr "n")].
Proof.
  split.
  - exact (proj2 (proj2 (proj2 (proj2 (proj2 (proj2 (proj2 (proj2
             (constructor_snapshot_is_empty (E := Reference.collaborators)
                [("name", VStr "n")] loaded))))))))
             eq_refl eq_refl "name" (VStr "n") [] eq_refl).
  - rewrite (proj1 (proj2 (proj2
               (constructor_snapshot_is_empty (E := Reference.collaborators)
                  [("name", VStr "n")] account)))).
    reflexivity.
Defined.

(** [hydrated_rows_are_clean] on a row of the users table, whose type
    is totally guarded. *)
Lemma hydrated_rows_are_clean_witness :
  hydrate [row] loaded = (Ok [user], loaded) /\
  get_dirty (hydrated user row) = [].
Proof.
  destruct (hydrated_rows_are_clean (E := Reference.collaborators) loaded)
    as (_ & _ & Hrows & Hclean).
  split; [exact (Hrows [row])|].
  apply (Hclean row).
  - repeat constructor; simpl; intuition discriminate.
  - intros k v Hin. simpl in Hin.
    repeat (destruct Hin as [Hin | Hin];
            [injection Hin as _ <-; reflexivity|]).
    contradiction.
Defined.

(** [remove_table_from_key_is_last_part] on a key with two dots. *)
Lemma remove_table_from_key_is_last_part_witness :
  has_dot "app.users.name" = true /\
  exists table,
    "app.users.name" = (table ++ "." ++ _remove_table_from_key "app.users.name")%string.
Proof.
  split; [reflexivity|].
  exact (proj1 (proj2 (proj2 (remove_table_from_key_is_last_part
                                "app.users.name"))) eq_refl).
Defined.

(** [attribute_read_back] on the loaded user. *)
Lemma attribute_read_back_witness :
  get_attribute (self (stored (Some "name") (VStr "z") loaded)) (Some "name") =
  Ok (VStr "z") /\
  get_attribute (self loaded) (Some "email") =
  Raise (AttributeError (Some "email")) /\
  set_attribute (Some "updated_at") (VArrow 1700000000000000 3600000000) loaded =
  (Ok tt, stored (Some "updated_at") (VDatetime 1700000000000000) loaded).
Proof.
  split; [|split].
  - exact (proj2 (proj1 (proj2 (attribute_read_back
                                  (E := Reference.collaborators)
                                  (Some "name") (VStr "z") loaded))
                    eq_refl eq_refl)).
  - exact (proj1 (attribute_read_back (E := Reference.collaborators)
                    (Some "email") VNone loaded) eq_refl).
  - exact (proj1 (proj2 (proj2 (proj2 (attribute_read_back
                                         (E := Reference.collaborators)
                                         (Some "updated_at") VNone loaded)))
                    eq_refl eq_refl 1700000000000000%Z 3600000000%Z)).
Defined.
End MoreInstances.
